(** * realistic-task-timer: the estimation service and the timer controller

    A shallow embedding of [utils/openai.ts] ([calculateRealTime]) and of the
    state and event handlers of [screens/TaskInputScreen.tsx], followed by
    the properties the specification states about them.

    Conventions of the embedding:
    - a JavaScript [number] is [NaN], an infinity or a rational (every finite
      double is one). The products and differences of the timer ([m * 60],
      [r - 1]) are taken exactly, as they are in binary64 for whole numbers
      below two to the fifty-third. The one product that is not exact,
      [n * 1.2], and the value [parseInt] returns are computed in binary64
      with the Standard Library's executable model of IEEE 754;
    - a JavaScript string is the [string] of its UTF-8 bytes; [trim] and
      [parseInt] strip the white space and line terminator characters of
      the language, in their UTF-8 encodings;
    - a computation that can throw has a [completion] type and a
      [try]/[catch] is a match on it;
    - React state is a record; a handler reads the state of the render it
      was created in and the closure of a [setInterval] callback keeps the
      [tasks] array of the render that started it. *)

From Stdlib Require Import ZArith QArith Qround List String Ascii Bool Lia Lqa.
From Stdlib Require Import Floats.SpecFloat.
From Stdlib Require DecimalString DecimalN DecimalPos.
From Stdlib Require Import NArith.
Import ListNotations.
Local Open Scope string_scope.
Set Warnings "-register-all".

(** ** JavaScript values *)

Inductive number : Type :=
| NaN
| Infinity (negative : bool)
| Num (q : Q).

Definition num_of_Z (z : Z) : number := Num (inject_Z z).

Definition number_truthy (n : number) : bool :=
  match n with
  | NaN => false
  | Infinity _ => true
  | Num q => negb (Qeq_bool q 0)
  end.

Definition is_negative (q : Q) : bool := (Qnum q <? 0)%Z.

(** [a * b] *)
Definition js_mul (a b : number) : number :=
  match a, b with
  | Num x, Num y => Num (x * y)
  | Infinity s, Infinity t => Infinity (xorb s t)
  | Infinity s, Num y => if Qeq_bool y 0 then NaN else Infinity (xorb s (is_negative y))
  | Num x, Infinity t => if Qeq_bool x 0 then NaN else Infinity (xorb (is_negative x) t)
  | _, _ => NaN
  end.

(** [a - b] *)
Definition js_sub (a b : number) : number :=
  match a, b with
  | Num x, Num y => Num (x - y)
  | Infinity s, Infinity t => if Bool.eqb s t then NaN else Infinity s
  | Infinity s, Num _ => Infinity s
  | Num _, Infinity t => Infinity (negb t)
  | _, _ => NaN
  end.

(** [a <= 0] *)
Definition js_le0 (a : number) : bool :=
  match a with
  | NaN => false
  | Infinity negative => negative
  | Num x => Qle_bool x 0
  end.

(** ** Double precision

    The operations whose result is not exact: [n] and the literal [1.2] are
    binary64 values, a product is rounded to nearest even, and the ceiling
    of a finite double is exact. *)

Section Ieee.

Definition prec : Z := 53.
Definition emax : Z := 1024.

Definition double_of_Z (n : Z) : spec_float :=
  binary_normalize prec emax n 0 false.

(** The double nearest to 6/5, which is what the literal [1.2] denotes. *)
Definition double_1_2 : spec_float :=
  SFdiv prec emax (double_of_Z 6) (double_of_Z 5).

Definition double_ceil (x : spec_float) : option Z :=
  match x with
  | S754_zero _ => Some 0%Z
  | S754_finite sign m e =>
      let z := if sign then Z.neg m else Z.pos m in
      Some (match e with
            | Z0 => z
            | Zpos p => z * 2 ^ Zpos p
            | Zneg p => - ((- z) / 2 ^ Zpos p)
            end)%Z
  | _ => None
  end.

Definition double_fallback (n : Z) : option Z :=
  double_ceil (SFmul prec emax (double_of_Z n) double_1_2).

(** What [k] right shifts of the mantissa [M] leave when a product is
    rounded: the quotient, a round bit that tells whether the remainder
    reaches half of the last place, and a sticky bit that tells whether it
    is neither nothing nor that half. *)
Definition shifted (M k : Z) (mrs : shr_record) : Prop :=
  (0 <= shr_m mrs)%Z /\
  shr_m mrs = (M / 2 ^ k)%Z /\
  (shr_r mrs = true <-> (2 ^ k <= 2 * (M mod 2 ^ k))%Z) /\
  (shr_s mrs = true <->
   (M mod 2 ^ k)%Z <> 0%Z /\ (2 * (M mod 2 ^ k))%Z <> (2 ^ k)%Z).

(** The double a number is. A rational whose denominator is a power of two
    is converted by one rounding; no other rational is the value of a
    double, and those get the rounded quotient. *)
Definition double_of_number (a : number) : spec_float :=
  match a with
  | NaN => S754_nan
  | Infinity negative => S754_infinity negative
  | Num q =>
      let k := Z.log2 (Zpos (Qden q)) in
      if (Zpos (Qden q) =? 2 ^ k)%Z
      then binary_normalize prec emax (Qnum q) (- k) false
      else SFdiv prec emax (double_of_Z (Qnum q)) (double_of_Z (Zpos (Qden q)))
  end.

(** The number a double is. *)
Definition number_of_double (x : spec_float) : number :=
  match x with
  | S754_nan => NaN
  | S754_infinity negative => Infinity negative
  | S754_zero _ => Num 0
  | S754_finite sign m e =>
      let z := if sign then Z.neg m else Z.pos m in
      match e with
      | Z0 => num_of_Z z
      | Zpos p => num_of_Z (z * 2 ^ Zpos p)
      | Zneg p => Num (Qred (z # 2 ^ p))
      end
  end.

(** [Math.ceil]: NaN and the infinities are their own ceiling. *)
Definition Math_ceil (x : spec_float) : number :=
  match double_ceil x with
  | Some z => num_of_Z z
  | None => number_of_double x
  end.

(** The double nearest to a whole number: the number itself below two to
    the fifty-third, where every whole number is a double. *)
Definition nearest_double (v : Z) : number :=
  if (Z.abs v <? 2 ^ 53)%Z then num_of_Z v
  else number_of_double (double_of_Z v).

End Ieee.

(** What [JSON.parse] can return. An object keeps its members in source
    order; a repeated key is read at its last occurrence. *)
Inductive json : Type :=
| JNull
| JBool (b : bool)
| JNum (n : number)
| JStr (s : string)
| JArr (items : list json)
| JObj (members : list (string * json)).

(** A value read off a property: [undefined] or a JSON value. *)
Definition value : Type := option json.
Definition undefined : value := None.

Definition truthy (v : value) : bool :=
  match v with
  | None => false
  | Some JNull => false
  | Some (JBool b) => b
  | Some (JNum n) => number_truthy n
  | Some (JStr s) => negb (String.eqb s "")
  | Some (JArr _) => true
  | Some (JObj _) => true
  end.

(** [a || b] *)
Definition js_or (a b : value) : value := if truthy a then a else b.

Fixpoint last_member (key : string) (ms : list (string * json)) : value :=
  match ms with
  | [] => None
  | (k, v) :: rest =>
      match last_member key rest with
      | Some w => Some w
      | None => if String.eqb k key then Some v else None
      end
  end.

(** ** Completions: a result or a thrown error *)

Inductive error : Type :=
| ApiError       (* the awaited request rejected *)
| TypeError      (* property read on null or undefined *)
| SyntaxError.   (* JSON.parse *)

Inductive completion (A : Type) : Type :=
| Return (a : A)
| Throw (e : error).
Arguments Return {A} a.
Arguments Throw {A} e.

Definition bind {A B} (c : completion A) (k : A -> completion B) : completion B :=
  match c with
  | Return a => k a
  | Throw e => Throw e
  end.

Notation "x <- c ;; k" := (bind c (fun x => k))
  (at level 61, c at next level, right associativity).

(** [result.key] for a parsed [result]: reading a property of [null] throws,
    an object yields its member, any other value has no such property. *)
Definition get_property (result : json) (key : string) : completion value :=
  match result with
  | JNull => Throw TypeError
  | JObj ms => Return (last_member key ms)
  | _ => Return undefined
  end.

(** ** utils/openai.ts *)

Module Estimation.

Record TimeCalculationResult : Type := {
  realTime : value;
  explanation : value
}.

(** The response of [openai.chat.completions.create]: the [message.content]
    of each element of [choices], [None] for a [null] content. *)
Definition response : Type := list (option string).

Inductive console_entry : Type :=
| JsonParseErrorLogged (e : error)
| OpenAIApiErrorLogged (e : error).

Definition overhead_explanation : string :=
  "予期せぬ中断や作業が発生する可能性を考慮して、余裕を持った時間を設定しました。".

Definition api_error_explanation : string :=
  "APIエラーが発生したため、基本の20%増しで計算しました。".

(** [Math.ceil(estimatedTime * 1.2)], in double precision. *)
Definition fallback_minutes (estimatedTime : number) : number :=
  Math_ceil (SFmul prec emax (double_of_number estimatedTime) double_1_2).

Section Collaborators.

(** The remote completion endpoint and the built-in JSON decoder. *)
Variable create : string -> number -> completion response.
Variable JSON_parse : string -> completion json.

(** [response.choices[0].message.content || ""] *)
Definition first_content (r : response) : completion string :=
  match r with
  | [] => Throw TypeError
  | c :: _ =>
      Return (match c with
              | Some s => if String.eqb s "" then "" else s
              | None => ""
              end)
  end.

Definition parse_branch (estimatedTime : number) (content : string)
  : completion TimeCalculationResult :=
  result <- JSON_parse content ;;
  rt <- get_property result "realTime" ;;
  ex <- get_property result "explanation" ;;
  Return {| realTime := js_or rt (Some (JNum (fallback_minutes estimatedTime)));
            explanation := js_or ex (Some (JStr overhead_explanation)) |}.

Definition inner_try (estimatedTime : number) (content : string)
  : list console_entry * completion TimeCalculationResult :=
  match parse_branch estimatedTime content with
  | Return r => ([], Return r)
  | Throw parseError =>
      ([JsonParseErrorLogged parseError],
       Return {| realTime := Some (JNum (fallback_minutes estimatedTime));
                 explanation := Some (JStr overhead_explanation) |})
  end.

Definition outer_try (taskName : string) (estimatedTime : number)
  : list console_entry * completion TimeCalculationResult :=
  match (response <- create taskName estimatedTime ;; first_content response) with
  | Return content => inner_try estimatedTime content
  | Throw e => ([], Throw e)
  end.

Definition calculateRealTime (taskName : string) (estimatedTime : number)
  : list console_entry * completion TimeCalculationResult :=
  match outer_try taskName estimatedTime with
  | (log, Return r) => (log, Return r)
  | (log, Throw error) =>
      ((log ++ [OpenAIApiErrorLogged error])%list,
       Return {| realTime := Some (JNum (fallback_minutes estimatedTime));
                 explanation := Some (JStr api_error_explanation) |})
  end.

End Collaborators.

End Estimation.

(** ** Strings: [String.prototype.trim] and [parseInt] *)

Definition utf8 (bytes : list nat) : string :=
  string_of_list_ascii (map ascii_of_nat bytes).

(** The white space and line terminator characters of the language, each
    by its UTF-8 encoding: U+0009 to U+000D, U+0020, U+00A0, U+1680, U+2000
    to U+200A, U+2028, U+2029, U+202F, U+205F, U+3000 and U+FEFF. *)
Definition white_space : list string :=
  Eval vm_compute in
    ([utf8 [9]; utf8 [10]; utf8 [11]; utf8 [12]; utf8 [13]; utf8 [32];
     utf8 [194; 160];
     utf8 [225; 154; 128];
     utf8 [226; 128; 128]; utf8 [226; 128; 129]; utf8 [226; 128; 130];
     utf8 [226; 128; 131]; utf8 [226; 128; 132]; utf8 [226; 128; 133];
     utf8 [226; 128; 134]; utf8 [226; 128; 135]; utf8 [226; 128; 136];
     utf8 [226; 128; 137]; utf8 [226; 128; 138];
     utf8 [226; 128; 168]; utf8 [226; 128; 169];
     utf8 [226; 128; 175];
     utf8 [226; 129; 159];
     utf8 [227; 128; 128];
     utf8 [239; 187; 191]])%nat.

(** [s] without its prefix [p]. *)
Fixpoint prefix_rest (p s : string) : option string :=
  match p with
  | EmptyString => Some s
  | String a p' =>
      match s with
      | String b s' => if Ascii.eqb a b then prefix_rest p' s' else None
      | EmptyString => None
      end
  end.

(** [s] without the first of [ws] it starts with. *)
Fixpoint strip_first (ws : list string) (s : string) : option string :=
  match ws with
  | [] => None
  | w :: ws' =>
      match prefix_rest w s with
      | Some rest => Some rest
      | None => strip_first ws' s
      end
  end.

(** Leading white space goes, one character at a time; the string has
    at most as many characters as bytes. *)
Fixpoint trimStart_steps (steps : nat) (s : string) : string :=
  match steps with
  | O => s
  | S steps' =>
      match strip_first white_space s with
      | Some rest => trimStart_steps steps' rest
      | None => s
      end
  end.

Definition trimStart (s : string) : string :=
  trimStart_steps (String.length s) s.

(** The string is made of white space only. *)
Definition all_spaces (s : string) : bool :=
  match trimStart s with
  | EmptyString => true
  | String _ _ => false
  end.

(** The string up to where only white space follows. *)
Fixpoint trimEnd (s : string) : string :=
  match s with
  | EmptyString => EmptyString
  | String c rest => if all_spaces s then EmptyString else String c (trimEnd rest)
  end.

Definition trim (s : string) : string := trimEnd (trimStart s).

(** A string is truthy when it is not empty. *)
Definition string_truthy (s : string) : bool := negb (String.eqb s "").

Definition digit_value (radix : Z) (c : ascii) : option Z :=
  let n := Z.of_nat (nat_of_ascii c) in
  let d :=
    if (48 <=? n)%Z && (n <=? 57)%Z then Some (n - 48)%Z
    else if (97 <=? n)%Z && (n <=? 122)%Z then Some (n - 87)%Z
    else if (65 <=? n)%Z && (n <=? 90)%Z then Some (n - 55)%Z
    else None in
  match d with
  | Some v => if (v <? radix)%Z then Some v else None
  | None => None
  end.

(** The longest prefix of digits, [None] when there is none. *)
Fixpoint leading_digits (radix : Z) (s : string) (acc : option Z) : option Z :=
  match s with
  | EmptyString => acc
  | String c rest =>
      match digit_value radix c with
      | Some d =>
          leading_digits radix rest
            (Some (radix * match acc with Some a => a | None => 0 end + d)%Z)
      | None => acc
      end
  end.

(** [parseInt(s)] with no radix argument: the double nearest to the whole
    number the digits denote. *)
Definition parseInt (s : string) : number :=
  let s1 := trimStart s in
  let '(negative, s2) :=
    match s1 with
    | String "-" rest => (true, rest)
    | String "+" rest => (false, rest)
    | _ => (false, s1)
    end in
  let '(radix, s3) :=
    match s2 with
    | String "0" (String "x" rest) => (16%Z, rest)
    | String "0" (String "X" rest) => (16%Z, rest)
    | _ => (10%Z, s2)
    end in
  match leading_digits radix s3 None with
  | None => NaN
  | Some v => nearest_double (if negative then - v else v)
  end.

(** ** screens/TaskInputScreen.tsx *)

Module Controller.

Record Task : Type := {
  id : string;
  name : string;
  estimatedTime : number;
  realTime : number;
  isRunning : option bool;
  isPaused : option bool;
  remainingTime : option number
}.

(** [{ ...task, name, estimatedTime, realTime }] *)
Definition with_estimate (task : Task) (n : string) (est rt : number) : Task :=
  {| id := id task; name := n; estimatedTime := est; realTime := rt;
     isRunning := isRunning task; isPaused := isPaused task;
     remainingTime := remainingTime task |}.

(** [{ ...task, isRunning, isPaused, remainingTime }] *)
Definition with_timer (task : Task) (running paused : bool)
  (remaining : option number) : Task :=
  {| id := id task; name := name task; estimatedTime := estimatedTime task;
     realTime := realTime task;
     isRunning := Some running; isPaused := Some paused;
     remainingTime := remaining |}.

(** [{ ...task, remainingTime }] *)
Definition with_remaining (task : Task) (remaining : number) : Task :=
  {| id := id task; name := name task; estimatedTime := estimatedTime task;
     realTime := realTime task;
     isRunning := isRunning task; isPaused := isPaused task;
     remainingTime := Some remaining |}.

(** An optional boolean field used as a condition. *)
Definition flag (b : option bool) : bool :=
  match b with
  | Some true => true
  | _ => false
  end.

(** [field || otherwise] for an optional number. *)
Definition or_number (field : option number) (otherwise : number) : number :=
  match field with
  | Some n => if number_truthy n then n else otherwise
  | None => otherwise
  end.

(** [tasks.map(t => t.id === by.id ? by : t)] *)
Definition replace_task (by_ : Task) (ts : list Task) : list Task :=
  map (fun t => if String.eqb (id t) (id by_) then by_ else t) ts.

(** A live [setInterval] callback: its handle and the [tasks] array its
    closure captured. *)
Record Interval : Type := {
  handle : N;
  captured_tasks : list Task
}.

Inductive effect : Type :=
| Alert (title message : string)
| EstimateDialog (estimatedMinutes realMinutes : number) (explanation : string)
| EstimateRequested (taskName_ : string) (estimatedMinutes : number)
| StorageSetItem (key : string) (saved : list Task).

Definition STORAGE_KEY : string := "@tasks_key".

Record State : Type := {
  taskName : string;
  estimatedTimeInput : string;        (* the [estimatedTime] state variable *)
  tasks : list Task;
  editingTask : option Task;
  activeTask : option Task;
  timer : option N;                   (* handles are positive: [if (timer)] tests presence *)
  intervals : list Interval;          (* callbacks the runtime still fires *)
  next_handle : N;
  storage : option (list Task);       (* the slot behind [STORAGE_KEY] *)
  effects : list effect               (* oldest first *)
}.

Definition initial : State :=
  {| taskName := ""; estimatedTimeInput := ""; tasks := [];
     editingTask := None; activeTask := None; timer := None;
     intervals := []; next_handle := 1%N; storage := None; effects := [] |}.

(** *** State setters *)

Definition set_inputs (n e : string) (st : State) : State :=
  {| taskName := n; estimatedTimeInput := e; tasks := tasks st;
     editingTask := editingTask st; activeTask := activeTask st;
     timer := timer st; intervals := intervals st;
     next_handle := next_handle st; storage := storage st;
     effects := effects st |}.

Definition setTasks (ts : list Task) (st : State) : State :=
  {| taskName := taskName st; estimatedTimeInput := estimatedTimeInput st;
     tasks := ts;
     editingTask := editingTask st; activeTask := activeTask st;
     timer := timer st; intervals := intervals st;
     next_handle := next_handle st; storage := storage st;
     effects := effects st |}.

Definition setEditingTask (e : option Task) (st : State) : State :=
  {| taskName := taskName st; estimatedTimeInput := estimatedTimeInput st;
     tasks := tasks st;
     editingTask := e; activeTask := activeTask st;
     timer := timer st; intervals := intervals st;
     next_handle := next_handle st; storage := storage st;
     effects := effects st |}.

Definition setActiveTask (a : option Task) (st : State) : State :=
  {| taskName := taskName st; estimatedTimeInput := estimatedTimeInput st;
     tasks := tasks st;
     editingTask := editingTask st; activeTask := a;
     timer := timer st; intervals := intervals st;
     next_handle := next_handle st; storage := storage st;
     effects := effects st |}.

Definition setTimer (h : option N) (st : State) : State :=
  {| taskName := taskName st; estimatedTimeInput := estimatedTimeInput st;
     tasks := tasks st;
     editingTask := editingTask st; activeTask := activeTask st;
     timer := h; intervals := intervals st;
     next_handle := next_handle st; storage := storage st;
     effects := effects st |}.

Definition set_storage (v : option (list Task)) (st : State) : State :=
  {| taskName := taskName st; estimatedTimeInput := estimatedTimeInput st;
     tasks := tasks st;
     editingTask := editingTask st; activeTask := activeTask st;
     timer := timer st; intervals := intervals st;
     next_handle := next_handle st; storage := v;
     effects := effects st |}.

Definition perform (e : effect) (st : State) : State :=
  {| taskName := taskName st; estimatedTimeInput := estimatedTimeInput st;
     tasks := tasks st;
     editingTask := editingTask st; activeTask := activeTask st;
     timer := timer st; intervals := intervals st;
     next_handle := next_handle st; storage := storage st;
     effects := effects st ++ [e] |}.

(** *** The runtime's timers *)

(** [setInterval(callback, 1000)]: a fresh handle, and the callback, which
    closes over [captured], is fired from now on. *)
Definition setInterval (captured : list Task) (st : State) : N * State :=
  let h := next_handle st in
  (h,
   {| taskName := taskName st; estimatedTimeInput := estimatedTimeInput st;
      tasks := tasks st;
      editingTask := editingTask st; activeTask := activeTask st;
      timer := timer st;
      intervals := intervals st ++ [{| handle := h; captured_tasks := captured |}];
      next_handle := N.succ h; storage := storage st;
      effects := effects st |}).

(** [clearInterval(h)]: nothing happens when [h] is not live. *)
Definition clearInterval (h : N) (st : State) : State :=
  {| taskName := taskName st; estimatedTimeInput := estimatedTimeInput st;
     tasks := tasks st;
     editingTask := editingTask st; activeTask := activeTask st;
     timer := timer st;
     intervals := filter (fun i => negb (N.eqb (handle i) h)) (intervals st);
     next_handle := next_handle st; storage := storage st;
     effects := effects st |}.

(** *** Persistence *)

(** The argument is the result of [AsyncStorage.getItem] followed by
    [JSON.parse]: nothing stored, a stored list, or an exception of either. *)
Definition loadTasks (read : completion (option (list Task))) (st : State) : State :=
  match read with
  | Return (Some savedTasks) => setTasks savedTasks st
  | Return None => st
  | Throw _ => perform (Alert "エラー" "タスクの読み込みに失敗しました") st
  end.

(** [write_ok] tells whether [AsyncStorage.setItem] resolves. *)
Definition saveTasks (write_ok : bool) (updatedTasks : list Task) (st : State) : State :=
  let st1 := perform (StorageSetItem STORAGE_KEY updatedTasks) st in
  if write_ok then set_storage (Some updatedTasks) st1
  else perform (Alert "エラー" "タスクの保存に失敗しました") st1.

(** *** Adding and editing *)

(** What the closure of the confirmation dialog keeps of the render in
    which [handleAddTask] ran. *)
Record Pending : Type := {
  pending_taskName : string;
  pending_estimatedMinutes : number;
  pending_tasks : list Task;
  pending_editingTask : option Task
}.

(** [handleAddTask] up to its [await]: a validation alert, or the request
    sent to the estimation service. *)
Definition handleAddTask (st : State) : State * option Pending :=
  if negb (string_truthy (trim (taskName st)))
     || negb (string_truthy (trim (estimatedTimeInput st)))
  then (perform (Alert "エラー" "タスク名と予定時間を入力してください") st, None)
  else
    let estimatedMinutes := parseInt (estimatedTimeInput st) in
    (perform (EstimateRequested (taskName st) estimatedMinutes) st,
     Some {| pending_taskName := taskName st;
             pending_estimatedMinutes := estimatedMinutes;
             pending_tasks := tasks st;
             pending_editingTask := editingTask st |}).

(** [handleAddTask] after its [await]: the dialog is shown. *)
Definition showEstimate (p : Pending) (result_realTime : number)
  (result_explanation : string) (st : State) : State :=
  perform (EstimateDialog (pending_estimatedMinutes p) result_realTime
             result_explanation) st.

(** The [onPress] of the dialog's add button; [now] is
    [Date.now().toString()]. *)
Definition pressAdd (p : Pending) (result_realTime : number) (now : string)
  (write_ok : bool) (st : State) : State :=
  let updatedTasks :=
    match pending_editingTask p with
    | Some editing =>
        map (fun task =>
               if String.eqb (id task) (id editing)
               then with_estimate task (trim (pending_taskName p))
                      (pending_estimatedMinutes p) result_realTime
               else task)
            (pending_tasks p)
    | None =>
        (pending_tasks p ++
         [{| id := now; name := trim (pending_taskName p);
             estimatedTime := pending_estimatedMinutes p;
             realTime := result_realTime;
             isRunning := None; isPaused := None; remainingTime := None |}])%list
    end in
  setEditingTask None
    (set_inputs "" "" (saveTasks write_ok updatedTasks (setTasks updatedTasks st))).

Definition handleCancelEdit (st : State) : State :=
  set_inputs "" "" (setEditingTask None st).

Definition handleDeleteTask (taskId : string) (write_ok : bool) (st : State) : State :=
  let updatedTasks :=
    filter (fun task => negb (String.eqb (id task) taskId)) (tasks st) in
  saveTasks write_ok updatedTasks (setTasks updatedTasks st).

(** *** The countdown *)

(** The callback given to [setInterval] by the [startTimer] call that
    obtained handle [intervalId] and captured [tasks_]. *)
Definition tick (intervalId : N) (tasks_ : list Task) (st : State) : State :=
  match activeTask st with
  | None => st
  | Some current =>
      if flag (isPaused current) then st
      else
        let newRemainingTime :=
          js_sub (or_number (remainingTime current) (Num 0)) (Num 1) in
        if js_le0 newRemainingTime then
          setActiveTask None
            (setTimer None
               (perform (Alert "完了" (name current ++ "が完了しました！"))
                  (clearInterval intervalId st)))
        else
          let updatedTask := with_remaining current newRemainingTime in
          setActiveTask (Some updatedTask)
            (setTasks (replace_task updatedTask tasks_) st)
  end.

Definition startTimer (task : Task) (st : State) : State :=
  if match activeTask st with
     | Some active => negb (String.eqb (id active) (id task))
     | None => false
     end
  then perform (Alert "警告" "既に実行中のタスクがあります") st
  else
    let updatedTask :=
      with_timer task true false
        (Some (or_number (remainingTime task) (js_mul (realTime task) (Num 60)))) in
    let st1 := setActiveTask (Some updatedTask) st in
    let st2 := setTasks (replace_task updatedTask (tasks st)) st1 in
    let '(intervalId, st3) := setInterval (tasks st) st2 in
    setTimer (Some intervalId) st3.

Definition stop_tick (st : State) : State :=
  match timer st with
  | Some h => setTimer None (clearInterval h st)
  | None => st
  end.

Definition pauseTimer (st : State) : State :=
  let st1 := stop_tick st in
  match activeTask st with
  | Some active =>
      let updatedTask := with_timer active true true (remainingTime active) in
      setActiveTask (Some updatedTask)
        (setTasks (replace_task updatedTask (tasks st)) st1)
  | None => st1
  end.

Definition resetTimer (st : State) : State :=
  let st1 := stop_tick st in
  match activeTask st with
  | Some active =>
      let updatedTask := with_timer active false false None in
      setActiveTask None
        (setTasks (replace_task updatedTask (tasks st)) st1)
  | None => st1
  end.

(** *** Runs of the screen *)

Section Runs.

(** [Number.prototype.toString], used to fill the minutes field on edit. *)
Variable Number_toString : number -> string.

Definition handleEditTask (task : Task) (st : State) : State :=
  set_inputs (name task) (Number_toString (estimatedTime task))
    (setEditingTask (Some task) st).

Inductive event : Type :=
| Typed (taskName_ estimatedTime_ : string)
| Loaded (read : completion (option (list Task)))
| AddPressed
| EstimateArrived (p : Pending) (result_realTime : number)
    (result_explanation : string)
| DialogAdd (p : Pending) (result_realTime : number) (now : string)
    (write_ok : bool)
| DialogCancel
| EditPressed (task : Task)
| CancelEditPressed
| DeletePressed (taskId : string) (write_ok : bool)
| StartPressed (task : Task)
| PausePressed
| ResetPressed
| Ticked (i : Interval).

Definition step (st : State) (ev : event) : State :=
  match ev with
  | Typed n e => set_inputs n e st
  | Loaded read => loadTasks read st
  | AddPressed => fst (handleAddTask st)
  | EstimateArrived p rt ex => showEstimate p rt ex st
  | DialogAdd p rt now ok => pressAdd p rt now ok st
  | DialogCancel => st
  | EditPressed task => handleEditTask task st
  | CancelEditPressed => handleCancelEdit st
  | DeletePressed taskId ok => handleDeleteTask taskId ok st
  | StartPressed task => startTimer task st
  | PausePressed => pauseTimer st
  | ResetPressed => resetTimer st
  | Ticked i => tick (handle i) (captured_tasks i) st
  end.

(** The runtime fires a callback only while its interval is live. *)
Definition enabled (st : State) (ev : event) : Prop :=
  match ev with
  | Ticked i => In i (intervals st)
  | _ => True
  end.

Inductive reachable : State -> Prop :=
| reachable_initial : reachable initial
| reachable_step st ev :
    reachable st -> enabled st ev -> reachable (step st ev).

Definition run (st : State) (evs : list event) : State :=
  fold_left step evs st.

End Runs.

End Controller.

(** ** Vocabulary of the specification *)

(** Two numbers with the same value. *)
Definition number_eq (a b : number) : Prop :=
  match a, b with
  | NaN, NaN => True
  | Num x, Num y => x == y
  | _, _ => False
  end.

(** A number value that is an integer greater than zero. *)
Definition positive_integer (v : value) : bool :=
  match v with
  | Some (JNum (Num q)) =>
      (0 <? Qnum q)%Z && (Qnum q mod Zpos (Qden q) =? 0)%Z
  | _ => false
  end.

(** The field of a decoded response as the specification reads it: absent
    unless the decoded value is an object that has it. *)
Definition field (result : json) (key : string) : value :=
  match result with
  | JObj ms => last_member key ms
  | _ => undefined
  end.

(** The values that count as false in a condition: a missing field, [null],
    [false], a zero, NaN and the empty string. *)
Inductive falsy : value -> Prop :=
| falsy_missing : falsy undefined
| falsy_null : falsy (Some JNull)
| falsy_false : falsy (Some (JBool false))
| falsy_zero q : q == 0 -> falsy (Some (JNum (Num q)))
| falsy_NaN : falsy (Some (JNum NaN))
| falsy_empty : falsy (Some (JStr "")).

(** [ceil(estimatedMinutes * 1.2)] for an integer number of minutes. *)
Definition ceil_120_percent (estimatedMinutes : Z) : Z :=
  Qceiling (inject_Z estimatedMinutes * (6 # 5)).

(** Collaborators for concrete runs: an endpoint that rejects, one that
    answers with a single choice, and a decoder known on one text. *)
Definition unreachable : string -> number -> completion Estimation.response :=
  fun _ _ => Throw ApiError.

Definition answers (content : string)
  : string -> number -> completion Estimation.response :=
  fun _ _ => Return [Some content].

Definition decodes (text : string) (v : json) : string -> completion json :=
  fun s => if String.eqb s text then Return v else Throw SyntaxError.

Definition quote : string := String (ascii_of_nat 34) "".

(** The text [{"realTime": -5, "explanation": "hurry"}]. *)
Definition negative_reply_text : string :=
  "{" ++ quote ++ "realTime" ++ quote ++ ": -5, "
      ++ quote ++ "explanation" ++ quote ++ ": " ++ quote ++ "hurry" ++ quote ++ "}".

Definition negative_reply : json :=
  JObj [("realTime", JNum (Num (-5 # 1))); ("explanation", JStr "hurry")].

(** An estimate of three times two to the forty-ninth minutes, a whole
    number that is a double, and the fallback the program computes for it. *)
Definition tie_minutes : Z := 1688849860263936.
Definition tie_fallback : Z := 2026619832316723.

(** Text that is not JSON. *)
Definition garbled_text : string := "about an hour and a half".

(** The text [{"realTime": 0, "explanation": ""}]. *)
Definition zero_reply_text : string :=
  "{" ++ quote ++ "realTime" ++ quote ++ ": 0, "
      ++ quote ++ "explanation" ++ quote ++ ": " ++ quote ++ quote ++ "}".

Definition zero_reply : json :=
  JObj [("realTime", JNum (Num 0)); ("explanation", JStr "")].

(** The text [{"realTime": 90, "explanation": "includes review buffer"}]. *)
Definition ninety_reply_text : string :=
  "{" ++ quote ++ "realTime" ++ quote ++ ": 90, "
      ++ quote ++ "explanation" ++ quote ++ ": "
      ++ quote ++ "includes review buffer" ++ quote ++ "}".

Definition ninety_reply : json :=
  JObj [("realTime", JNum (Num 90)); ("explanation", JStr "includes review buffer")].

(** [Math.ceil(n * 1.2)] for a whole number [n], as the program computes it. *)
Definition ceil_of_product (n : Z) : number :=
  Math_ceil (SFmul prec emax (double_of_Z n) double_1_2).

(** The text [{"realTime": 1.5}]. *)
Definition fractional_reply_text : string :=
  "{" ++ quote ++ "realTime" ++ quote ++ ": 1.5}".

Definition fractional_reply : json := JObj [("realTime", JNum (Num (3 # 2)))].

Import Controller.

(** [Removed taskId before after]: [after] is [before] without the tasks
    whose id is [taskId], everything else kept as it was and where it was. *)
Inductive Removed (taskId : string) : list Task -> list Task -> Prop :=
| Removed_nil : Removed taskId [] []
| Removed_drop t ts ts' :
    id t = taskId -> Removed taskId ts ts' -> Removed taskId (t :: ts) ts'
| Removed_keep t ts ts' :
    id t <> taskId -> Removed taskId ts ts' -> Removed taskId (t :: ts) (t :: ts').

(** The first row of the list that shows the task with this id. *)
Definition entry (taskId : string) (st : State) : option Task :=
  find (fun t => String.eqb (id t) taskId) (tasks st).

(** The start (or resume) button of a row calls [startTimer] with the task
    that row renders. *)
Definition pressStart (taskId : string) (st : State) : State :=
  match entry taskId st with
  | Some task => startTimer task st
  | None => st
  end.

(** The add button is pressed, the estimate [minutes] arrives and the user
    accepts it in the dialog; [now] is the clock reading used for a new id. *)
Definition addAndAccept (minutes : number) (explanation : string) (now : string)
  (st : State) : State :=
  match handleAddTask st with
  | (st1, Some p) =>
      pressAdd p minutes now true (showEstimate p minutes explanation st1)
  | (st1, None) => st1
  end.

Definition api_error_note : string := Estimation.api_error_explanation.

Definition live_handles (st : State) : list N := map handle (intervals st).

(** A timer handle is kept only while a task is active. *)
Definition no_orphan_timer (st : State) : Prop :=
  activeTask st = None -> timer st = None.

Definition is_live (h : N) (st : State) : bool :=
  existsb (fun j => N.eqb (handle j) h) (intervals st).

(** One second goes by: every interval that is live fires once, in the
    order of creation, unless an earlier callback of the same second
    cleared it. *)
Definition second (st : State) : State :=
  fold_left
    (fun s i => if is_live (handle i) s
                then tick (handle i) (captured_tasks i) s else s)
    (intervals st) st.

Definition seconds (n : nat) (st : State) : State := Nat.iter n second st.

Definition remaining_of (t : option Task) : option number :=
  match t with
  | Some task => remainingTime task
  | None => None
  end.

Definition is_write (e : effect) : bool :=
  match e with
  | StorageSetItem _ _ => true
  | _ => false
  end.

Definition is_request (e : effect) : bool :=
  match e with
  | EstimateRequested _ _ => true
  | _ => false
  end.

(** Sample data. *)
Definition report : Task :=
  {| id := "1730505600000"; name := "Write report";
     estimatedTime := Num 4; realTime := Num 5;
     isRunning := None; isPaused := None; remainingTime := None |}.

Definition review : Task :=
  {| id := "1730505660000"; name := "Review";
     estimatedTime := Num 10; realTime := Num 12;
     isRunning := None; isPaused := None; remainingTime := None |}.


Definition listing (ts : list Task) : State :=
  loadTasks (Return (Some ts)) initial.


(** ** The rest of the screen *)

(** The timer buttons of a row, first to last: start for a task that is not
    running; otherwise pause or resume, and reset. *)
Inductive button : Type :=
| StartButton
| PauseButton
| ResumeButton
| ResetButton.

Definition timerButtons (task : Task) : list button :=
  if negb (flag (isRunning task)) then [StartButton]
  else
    ((if negb (flag (isPaused task)) then [PauseButton] else [ResumeButton])
     ++ [ResetButton])%list.

(** The [onPress] of each button of the row that renders [task]. *)
Definition press (b : button) (task : Task) (st : State) : State :=
  match b with
  | StartButton => startTimer task st
  | PauseButton => pauseTimer st
  | ResumeButton => startTimer task st
  | ResetButton => resetTimer st
  end.

(** [a / d] and [a % d] for a positive literal [d]; the remainder has the
    sign of the dividend. *)
Definition js_div_by (a : number) (d : positive) : number :=
  match a with
  | NaN => NaN
  | Infinity negative => Infinity negative
  | Num x => Num (x / (Zpos d # 1))
  end.

Definition Qtruncate (q : Q) : Z :=
  if Qle_bool 0 q then Qfloor q else Qceiling q.

Definition js_rem_by (a : number) (d : positive) : number :=
  match a with
  | NaN => NaN
  | Infinity _ => NaN
  | Num x => Num (x - (Zpos d # 1) * inject_Z (Qtruncate (x / (Zpos d # 1))))
  end.

Definition Math_floor (a : number) : number :=
  match a with
  | NaN => NaN
  | Infinity negative => Infinity negative
  | Num x => num_of_Z (Qfloor x)
  end.

Fixpoint repeat_char (c : ascii) (k : nat) : string :=
  match k with
  | O => ""
  | S k' => String c (repeat_char c k')
  end.

(** [s.padStart(targetLength, c)] for a one character filler. *)
Definition padStart (targetLength : nat) (c : ascii) (s : string) : string :=
  repeat_char c (targetLength - String.length s) ++ s.

(** [formatTime]; the argument of the function of that name is how the
    engine prints a number. *)
Definition formatTime (Number_toString : number -> string) (seconds : number)
  : string :=
  let minutes := Math_floor (js_div_by seconds 60) in
  let remainingSeconds := js_rem_by seconds 60 in
  Number_toString minutes ++ ":" ++ padStart 2 "0" (Number_toString remainingSeconds).

(** The time shown in the countdown banner while a task is active. *)
Definition banner (Number_toString : number -> string) (st : State)
  : option string :=
  match activeTask st with
  | Some active =>
      Some (formatTime Number_toString (or_number (remainingTime active) (Num 0)))
  | None => None
  end.

(** The decimal numeral of a natural number, which is how a whole number
    that is not negative is printed. *)
Definition decimal (n : N) : string :=
  DecimalString.NilZero.string_of_uint (N.to_uint n).

Definition whole (n : N) : number := num_of_Z (Z.of_N n).

(** A printing function that prints whole numbers as the engine does:
    digit for digit in plain decimal below two to the fifty-third, the range
    in which every whole number is a double. *)
Definition prints_whole_numbers (Number_toString : number -> string) : Prop :=
  forall (q : Q) (n : N),
    (n < 2 ^ 53)%N ->
    q == inject_Z (Z.of_N n) -> Number_toString (Num q) = decimal n.

(** A printer for concrete runs: exact on whole numbers that are not
    negative, a placeholder elsewhere. *)
Definition print_whole (a : number) : string :=
  match a with
  | NaN => "NaN"
  | Infinity negative => if negative then "-Infinity" else "Infinity"
  | Num q =>
      if (0 <=? Qnum q)%Z && (Qnum q mod Zpos (Qden q) =? 0)%Z
      then decimal (Z.to_N (Qnum q / Zpos (Qden q)))
      else "?"
  end.

(** The character of a digit and the two digit numeral of a number below
    one hundred. *)
Definition digit_char (k : N) : ascii := ascii_of_N (48 + k).

Definition two_digits (r : N) : string :=
  String (digit_char (r / 10)) (String (digit_char (r mod 10)) "").

(** The value the digits of [d] add to [acc], most significant first. *)
Fixpoint uint_value (d : Decimal.uint) (acc : Z) : Z :=
  match d with
  | Decimal.Nil => acc
  | Decimal.D0 d' => uint_value d' (10 * acc + 0)
  | Decimal.D1 d' => uint_value d' (10 * acc + 1)
  | Decimal.D2 d' => uint_value d' (10 * acc + 2)
  | Decimal.D3 d' => uint_value d' (10 * acc + 3)
  | Decimal.D4 d' => uint_value d' (10 * acc + 4)
  | Decimal.D5 d' => uint_value d' (10 * acc + 5)
  | Decimal.D6 d' => uint_value d' (10 * acc + 6)
  | Decimal.D7 d' => uint_value d' (10 * acc + 7)
  | Decimal.D8 d' => uint_value d' (10 * acc + 8)
  | Decimal.D9 d' => uint_value d' (10 * acc + 9)
  end.

(** Text at which [parseInt] stops reading a decimal numeral: the end, or
    a character that is neither a decimal digit nor the [x] of a hexadecimal
    prefix. *)
Definition stops_reading (s : string) : bool :=
  match s with
  | EmptyString => true
  | String c _ =>
      match digit_value 10 c with
      | Some _ => false
      | None => negb (Ascii.eqb c "x" || Ascii.eqb c "X")
      end
  end.

(** The string is a sequence of white space characters. *)
Inductive blank : string -> Prop :=
| blank_empty : blank ""
| blank_more w s : In w white_space -> blank s -> blank (w ++ s).

Definition starts_with_white_space (s : string) : Prop :=
  exists w rest, In w white_space /\ s = w ++ rest.

Definition ends_with_white_space (s : string) : Prop :=
  exists front w, In w white_space /\ s = front ++ w.

(** The byte starts the encoding of a white space character. *)
Definition lead_byte (c : ascii) : bool :=
  existsb (fun w => match w with
                    | String a _ => Ascii.eqb a c
                    | EmptyString => true
                    end) white_space.

(** The ideographic space U+3000 and the no-break space U+00A0. *)
Definition ideographic_space : string := utf8 [227; 128; 128]%nat.
Definition no_break_space : string := utf8 [194; 160]%nat.

(** Runs in which [startTimer] is only called while no interval handle is
    held, or for a task other than the active one. *)
Definition start_without_handle (st : State) (ev : event) : Prop :=
  match ev with
  | StartPressed task =>
      timer st = None \/
      exists active, activeTask st = Some active /\ id active <> id task
  | _ => True
  end.

Inductive reachable_without_restart (Number_toString : number -> string)
  : State -> Prop :=
| without_restart_initial : reachable_without_restart Number_toString initial
| without_restart_step st ev :
    reachable_without_restart Number_toString st ->
    enabled st ev ->
    start_without_handle st ev ->
    reachable_without_restart Number_toString (step Number_toString st ev).

(** The handle in the state variable, as a list. *)
Definition held (st : State) : list N :=
  match timer st with
  | Some h => [h]
  | None => []
  end.

(** An event that can write to storage. *)
Definition writes_storage (ev : event) : bool :=
  match ev with
  | DialogAdd _ _ _ _ => true
  | DeletePressed _ _ => true
  | _ => false
  end.


(** The row a commit writes for an existing one: same id and timer fields. *)
Definition same_identity_and_timer (before after : Task) : Prop :=
  id after = id before /\
  isRunning after = isRunning before /\
  isPaused after = isPaused before /\
  remainingTime after = remainingTime before.

(** * Properties *)

(** ** The fallback value

    [Math.ceil(n * 1.2)] multiplies the double [n] by the double nearest to
    6/5, which is a little below 6/5, and rounds the 106 bit product to 53
    bits before the ceiling is taken. The lemmas of this section follow the
    rounding bit by bit and show that the result is the ceiling of six
    fifths of [n] for every whole [n] from 1 and below three times two to
    the 49th; at that number the product is a tie and the result is one
    less. *)

Section DoubleRounding.

Local Open Scope Z_scope.

(** The number of bits of a positive number. *)
Lemma digits2_pos_bounds (p : positive) :
  2 ^ (Zpos (digits2_pos p) - 1) <= Zpos p < 2 ^ Zpos (digits2_pos p).
Proof.
  induction p as [p IH | p IH |]; cbn [digits2_pos].
  - rewrite Pos2Z.inj_succ.
    remember (Zpos (digits2_pos p)) as d eqn:Hd.
    assert (0 < d) by lia. clear Hd.
    replace (Z.succ d - 1) with (Z.succ (d - 1)) by lia.
    rewrite !Z.pow_succ_r by lia. lia.
  - rewrite Pos2Z.inj_succ.
    remember (Zpos (digits2_pos p)) as d eqn:Hd.
    assert (0 < d) by lia. clear Hd.
    replace (Z.succ d - 1) with (Z.succ (d - 1)) by lia.
    rewrite !Z.pow_succ_r by lia. lia.
  - cbn. lia.
Qed.

Lemma digits2_pos_unique (p : positive) (k : Z) :
  2 ^ (k - 1) <= Zpos p < 2 ^ k -> Zpos (digits2_pos p) = k.
Proof.
  intros [Hlo Hhi]. pose proof (digits2_pos_bounds p) as [Dlo Dhi].
  remember (Zpos (digits2_pos p)) as d eqn:Hd.
  assert (0 < d) by lia. clear Hd.
  assert (0 < k).
  { destruct (Z_lt_le_dec 0 k) as [|Hk]; [assumption|].
    assert (2 ^ k <= 1); [|lia].
    destruct (Z.eq_dec k 0) as [->|]; [cbn; lia|].
    rewrite Z.pow_neg_r by lia. lia. }
  destruct (Z_lt_le_dec d k) as [Hlt|Hge].
  - assert (2 ^ d <= 2 ^ (k - 1))
      by (apply Z.pow_le_mono_r; lia). lia.
  - destruct (Z_lt_le_dec k d) as [Hlt|Hle]; [|lia].
    assert (2 ^ k <= 2 ^ (d - 1))
      by (apply Z.pow_le_mono_r; lia). lia.
Qed.

(** Shifting left multiplies by a power of two. *)
Lemma iter_xO_value (m d : positive) :
  Zpos (Pos.iter xO m d) = Zpos m * 2 ^ Zpos d.
Proof.
  induction d as [|d IH] using Pos.peano_ind.
  - cbn. lia.
  - rewrite Pos.iter_succ, Pos2Z.inj_succ, Z.pow_succ_r by lia.
    change (Zpos (Pos.iter xO m d)~0) with (2 * Zpos (Pos.iter xO m d)).
    rewrite IH. lia.
Qed.

(** Shifting right, one bit at a time. *)
Lemma shifted_start (M : Z) :
  0 <= M -> shifted M 0 {| shr_m := M; shr_r := false; shr_s := false |}.
Proof.
  intros HM. unfold shifted. cbn [shr_m shr_r shr_s].
  rewrite Z.pow_0_r, Z.div_1_r, Z.mod_1_r.
  repeat split; try lia; try discriminate.
Qed.

Lemma shifted_step (M k : Z) (mrs : shr_record) :
  0 <= M -> 0 <= k -> shifted M k mrs -> shifted M (k + 1) (shr_1 mrs).
Proof.
  intros HM Hk [Hm [Hq [Hr Hs]]].
  assert (Hpow : 0 < 2 ^ k) by (apply Z.pow_pos_nonneg; lia).
  assert (Hpow' : 2 ^ (k + 1) = 2 ^ k * 2)
    by (rewrite Z.pow_add_r by lia; reflexivity).
  pose proof (Z.mod_pos_bound M (2 ^ k) Hpow) as HR.
  assert (Hrem : M mod 2 ^ (k + 1) = M mod 2 ^ k + 2 ^ k * ((M / 2 ^ k) mod 2))
    by (rewrite Hpow'; apply Z.rem_mul_r; lia).
  assert (Hquo : M / 2 ^ (k + 1) = M / 2 ^ k / 2)
    by (rewrite Hpow', Z.div_div by lia; reflexivity).
  rewrite <- Hq in Hrem, Hquo.
  set (R := M mod 2 ^ k) in *. set (P := 2 ^ k) in *.
  destruct mrs as [m r s]. cbn [shr_m shr_r shr_s] in *.
  assert (Hany : orb r s = true <-> R <> 0).
  { destruct r, s; cbn; split; intros H; try reflexivity; try discriminate.
    - pose proof (proj1 Hr eq_refl). lia.
    - pose proof (proj1 Hr eq_refl). lia.
    - pose proof (proj1 Hs eq_refl). lia.
    - exfalso. destruct (Z_le_gt_dec P (2 * R)) as [Hle|Hgt].
      + apply Hr in Hle. discriminate.
      + assert (Hst : R <> 0 /\ 2 * R <> P) by lia.
        apply Hs in Hst. discriminate. }
  unfold shifted. rewrite Hrem, Hquo, Hpow'.
  assert (Hback : forall b, R + P * b <> 0 /\ 2 * (R + P * b) <> P * 2 ->
                            0 <= b <= 1 -> orb r s = true).
  { intros b [H0 H2] Hb. apply Hany. intros HR0. rewrite HR0 in H0, H2.
    destruct (Z.eq_dec b 0) as [-> | Hb1]; [lia|].
    assert (b = 1) by lia. subst b. lia. }
  destruct m as [|p|p]; [| |lia].
  - cbn [shr_1 shr_m shr_r shr_s]. change (0 mod 2) with 0. change (0 / 2) with 0.
    split; [lia|]. split; [reflexivity|]. split; [split; [discriminate | lia]|].
    split.
    + intros H. apply Hany in H. lia.
    + intros H. apply (Hback 0); [exact H | lia].
  - destruct p as [p|p|]; cbn [shr_1 shr_m shr_r shr_s].
    + assert (Hodd : Zpos p~1 mod 2 = 1)
        by (symmetry; apply Z.mod_unique with (Zpos p); lia).
      assert (Hhalf : Zpos p~1 / 2 = Zpos p)
        by (symmetry; apply Z.div_unique with 1; lia).
      rewrite Hodd, Hhalf.
      split; [lia|]. split; [reflexivity|]. split; [split; [lia | reflexivity]|].
      split.
      * intros H. apply Hany in H. lia.
      * intros H. apply (Hback 1); [exact H | lia].
    + assert (Hodd : Zpos p~0 mod 2 = 0)
        by (symmetry; apply Z.mod_unique with (Zpos p); lia).
      assert (Hhalf : Zpos p~0 / 2 = Zpos p)
        by (symmetry; apply Z.div_unique with 0; lia).
      rewrite Hodd, Hhalf.
      split; [lia|]. split; [reflexivity|]. split; [split; [discriminate | lia]|].
      split.
      * intros H. apply Hany in H. lia.
      * intros H. apply (Hback 0); [exact H | lia].
    + change (1 mod 2) with 1. change (1 / 2) with 0.
      split; [lia|]. split; [reflexivity|]. split; [split; [lia | reflexivity]|].
      split.
      * intros H. apply Hany in H. lia.
      * intros H. apply (Hback 1); [exact H | lia].
Qed.

Lemma shifted_iter (M : Z) (p : positive) (k : Z) (mrs : shr_record) :
  0 <= M -> 0 <= k -> shifted M k mrs ->
  shifted M (k + Zpos p) (SpecFloat.iter_pos shr_1 p mrs).
Proof.
  intros HM. revert k mrs.
  induction p as [p IH | p IH |]; intros k mrs Hk H; cbn [SpecFloat.iter_pos].
  - replace (k + Zpos p~1) with (k + 1 + Zpos p + Zpos p) by lia.
    apply IH; [lia|]. apply IH; [lia|]. now apply shifted_step.
  - replace (k + Zpos p~0) with (k + Zpos p + Zpos p) by lia.
    apply IH; [lia|]. now apply IH.
  - now apply shifted_step.
Qed.

(** Rounding to nearest keeps the quotient or takes the next whole number,
    and never ends more than half of the last place below the mantissa. *)
Lemma round_nearest_even_shifted (M k : Z) (mrs : shr_record) :
  0 <= M -> 0 <= k -> shifted M k mrs ->
  let m2 := round_nearest_even (shr_m mrs) (loc_of_shr_record mrs) in
  (m2 = M / 2 ^ k \/ m2 = M / 2 ^ k + 1) /\
  2 * M <= (2 * m2 + 1) * 2 ^ k.
Proof.
  intros HM Hk [Hm [Hq [Hr Hs]]] m2.
  assert (Hpow : 0 < 2 ^ k) by (apply Z.pow_pos_nonneg; lia).
  pose proof (Z.mod_pos_bound M (2 ^ k) Hpow) as HR.
  pose proof (Z.div_mod M (2 ^ k) ltac:(lia)) as Hdm.
  destruct mrs as [m r s]. cbn [shr_m shr_r shr_s] in *.
  subst m2. rewrite Hq. clear Hq Hm.
  set (R := M mod 2 ^ k) in *. set (P := 2 ^ k) in *. set (q := M / P) in *.
  assert (Hlow : 2 * R <= P -> 2 * M <= (2 * q + 1) * P) by nia.
  assert (Hup : 2 * M <= (2 * (q + 1) + 1) * P) by nia.
  destruct r, s; cbn [loc_of_shr_record round_nearest_even].
  - split; [right; reflexivity | exact Hup].
  - destruct (Z.even q).
    + split; [left; reflexivity|]. apply Hlow.
      destruct (Z.eq_dec (2 * R) P) as [|Hne]; [lia|].
      assert (Hst : R <> 0 /\ 2 * R <> P).
      { split; [|exact Hne]. pose proof (proj1 Hr eq_refl). lia. }
      apply Hs in Hst. discriminate.
    + split; [right; reflexivity | exact Hup].
  - split; [left; reflexivity|]. apply Hlow.
    destruct (Z_le_gt_dec P (2 * R)) as [Hle|]; [|lia].
    apply Hr in Hle. discriminate.
  - split; [left; reflexivity|]. apply Hlow.
    destruct (Z_le_gt_dec P (2 * R)) as [Hle|]; [|lia].
    apply Hr in Hle. discriminate.
Qed.

(** A mantissa of 53 bits is kept as it is. *)
Lemma binary_round_aux_normal (M : positive) (E : Z) :
  Zpos (digits2_pos M) = 53 ->
  -1074 <= E <= 971 ->
  binary_round_aux prec emax false (Zpos M) E loc_Exact = S754_finite false M E.
Proof.
  intros HD HE.
  assert (Hs : fexp prec emax (Zdigits2 (Zpos M) + E) - E = 0).
  { cbn [Zdigits2]. rewrite HD. unfold fexp, emin, prec, emax. lia. }
  unfold binary_round_aux, shr_fexp. rewrite Hs.
  cbn [shr shr_record_of_loc shr_m loc_of_shr_record round_nearest_even].
  rewrite Hs. cbn [shr shr_m].
  replace (E <=? emax - prec) with true; [reflexivity|].
  symmetry. apply Z.leb_le. unfold emax, prec. lia.
Qed.

(** A longer mantissa loses its low bits [s]: the result is the mantissa
    rounded to nearest at that place, on 53 bits, or two to the 53rd written
    one place higher. *)
Lemma binary_round_aux_long (M : positive) (E : Z) (s : positive) :
  Zpos (digits2_pos M) = 53 + Zpos s ->
  -1074 <= E + Zpos s < 971 ->
  exists m e,
    binary_round_aux prec emax false (Zpos M) E loc_Exact = S754_finite false m e /\
    ((e = E + Zpos s /\
      Zpos M / 2 ^ Zpos s <= Zpos m <= Zpos M / 2 ^ Zpos s + 1 /\
      2 * Zpos M <= (2 * Zpos m + 1) * 2 ^ Zpos s) \/
     (e = E + Zpos s + 1 /\ 2 * Zpos m = Zpos M / 2 ^ Zpos s + 1)).
Proof.
  intros HD HE.
  assert (Hs : fexp prec emax (Zdigits2 (Zpos M) + E) - E = Zpos s).
  { cbn [Zdigits2]. rewrite HD. unfold fexp, emin, prec, emax. lia. }
  unfold binary_round_aux. unfold shr_fexp at 1. rewrite Hs.
  cbn [shr shr_record_of_loc].
  set (mrs := SpecFloat.iter_pos shr_1 s
                {| shr_m := Zpos M; shr_r := false; shr_s := false |}).
  assert (Hmrs : shifted (Zpos M) (Zpos s) mrs).
  { subst mrs. change (Zpos s) with (0 + Zpos s) at 1.
    apply shifted_iter; [lia | lia |]. apply shifted_start. lia. }
  destruct (round_nearest_even_shifted (Zpos M) (Zpos s) mrs
              ltac:(lia) ltac:(lia) Hmrs) as [Hm2 Hnear].
  pose proof (digits2_pos_bounds M) as [Hlo Hhi]. rewrite HD in Hlo, Hhi.
  assert (Hpow : 0 < 2 ^ Zpos s) by (apply Z.pow_pos_nonneg; lia).
  replace (53 + Zpos s - 1) with (Zpos s + 52) in Hlo by lia.
  replace (53 + Zpos s) with (Zpos s + 53) in Hhi by lia.
  rewrite Z.pow_add_r in Hlo, Hhi by lia.
  assert (Hqlo : 2 ^ 52 <= Zpos M / 2 ^ Zpos s)
    by (apply Z.div_le_lower_bound; lia).
  assert (Hqhi : Zpos M / 2 ^ Zpos s < 2 ^ 53)
    by (apply Z.div_lt_upper_bound; lia).
  set (q := Zpos M / 2 ^ Zpos s) in *.
  set (m2 := round_nearest_even (shr_m mrs) (loc_of_shr_record mrs)) in *.
  clearbody m2 q. clear mrs Hmrs.
  destruct (Z.eq_dec m2 (2 ^ 53)) as [Htop | Hbelow].
  - subst m2. change (2 ^ 53) with 9007199254740992.
    assert (Hs2 : fexp prec emax (Zdigits2 9007199254740992 + (E + Zpos s))
                  - (E + Zpos s) = 1).
    { change (Zdigits2 9007199254740992) with 54.
      unfold fexp, emin, prec, emax. lia. }
    unfold shr_fexp. rewrite Hs2. cbn [shr shr_record_of_loc SpecFloat.iter_pos shr_1 shr_m].
    replace (E + Zpos s + 1 <=? emax - prec) with true
      by (symmetry; apply Z.leb_le; unfold emax, prec; lia).
    eexists _, _. split; [reflexivity|]. right. split; [reflexivity|]. lia.
  - destruct m2 as [|m2|m2]; try lia.
    assert (HD2 : Zpos (digits2_pos m2) = 53)
      by (apply digits2_pos_unique; lia).
    assert (Hs2 : fexp prec emax (Zdigits2 (Zpos m2) + (E + Zpos s))
                  - (E + Zpos s) = 0).
    { cbn [Zdigits2]. rewrite HD2. unfold fexp, emin, prec, emax. lia. }
    unfold shr_fexp. rewrite Hs2. cbn [shr shr_record_of_loc shr_m].
    replace (E + Zpos s <=? emax - prec) with true
      by (symmetry; apply Z.leb_le; unfold emax, prec; lia).
    eexists _, _. split; [reflexivity|]. left. split; [reflexivity|]. lia.
Qed.

(** A whole number of fewer than 53 bits is a double: its bits, shifted
    to the top of the mantissa. *)
Lemma double_of_Z_short (n : positive) (d : Z) :
  Zpos (digits2_pos n) = d -> d < 53 ->
  exists N,
    double_of_Z (Zpos n) = S754_finite false N (d - 53) /\
    Zpos N = Zpos n * 2 ^ (53 - d) /\
    2 ^ 52 <= Zpos N < 2 ^ 53.
Proof.
  intros Hd Hlt.
  pose proof (digits2_pos_bounds n) as [Hlo Hhi]. rewrite Hd in Hlo, Hhi.
  assert (Hpos : 0 < d) by lia.
  unfold double_of_Z, binary_normalize, binary_round.
  assert (Hf : fexp prec emax (Zpos (digits2_pos n) + 0) = d - 53).
  { rewrite Hd. unfold fexp, emin, prec, emax. lia. }
  rewrite Hf. unfold shl_align.
  destruct (d - 53 - 0) as [|q|q] eqn:Hq; try lia.
  exists (Pos.iter xO n q).
  assert (Hv : Zpos (Pos.iter xO n q) = Zpos n * 2 ^ (53 - d)).
  { rewrite iter_xO_value. f_equal. f_equal. lia. }
  assert (Hb : 2 ^ 52 <= Zpos (Pos.iter xO n q) < 2 ^ 53).
  { rewrite Hv.
    assert (Hp : 0 < 2 ^ (53 - d)) by (apply Z.pow_pos_nonneg; lia).
    assert (H52 : 2 ^ 52 = 2 ^ (d - 1) * 2 ^ (53 - d)).
    { rewrite <- Z.pow_add_r by lia. f_equal. lia. }
    assert (H53 : 2 ^ 53 = 2 ^ d * 2 ^ (53 - d)).
    { rewrite <- Z.pow_add_r by lia. f_equal. lia. }
    rewrite H52, H53. split.
    - apply Z.mul_le_mono_nonneg_r; lia.
    - apply Z.mul_lt_mono_pos_r; lia. }
  split; [|split; [exact Hv | exact Hb]].
  apply binary_round_aux_normal.
  - apply digits2_pos_unique. exact Hb.
  - lia.
Qed.

(** The literal [1.2]: 5404319552844595 times two to the minus 52, and five
    times that mantissa is six times two to the 52nd less one. *)
Lemma double_1_2_bits : double_1_2 = S754_finite false 5404319552844595 (-52).
Proof. vm_compute. reflexivity. Qed.

(** The ceiling of a quotient, as [double_ceil] computes it. *)
Lemma ceiling_quotient (a b K : Z) :
  0 < b -> (K - 1) * b < a <= K * b -> - (- a / b) = K.
Proof.
  intros Hb H. rewrite <- (Z.div_unique (- a) b (- K) (K * b - a)); lia.
Qed.

(** The arithmetic of the product with the double nearest to 6/5. The
    mantissa of [n] is [n * (4 * v)]; the product, rounded to nearest at the
    place [2 ^ s], lies strictly above the multiple of the last whole
    number below six fifths of [n], and not above the multiple of the
    ceiling. *)
Lemma six_fifths_rounded (n v m2 : Z) :
  1 <= v -> 1 <= n < 3 * 2 ^ 49 -> n * (4 * v) < 2 ^ 53 ->
  let K := (6 * n + 4) / 5 in
  let M := n * (4 * v) * 5404319552844595 in
  (M / 2 ^ 52 <= m2 <= M / 2 ^ 52 + 1 ->
   2 * M <= (2 * m2 + 1) * 2 ^ 52 ->
   (K - 1) * (4 * v) < m2 <= K * (4 * v)) /\
  (2 ^ 105 <= M ->
   M / 2 ^ 53 <= m2 <= M / 2 ^ 53 + 1 ->
   2 * M <= (2 * m2 + 1) * 2 ^ 53 ->
   2 <= v /\ (K - 1) * (2 * v) < m2 <= K * (2 * v)).
Proof.
  intros Hv Hn Hb K M.
  pose proof (Z.div_mod (6 * n + 4) 5 ltac:(lia)) as Hdm.
  pose proof (Z.mod_pos_bound (6 * n + 4) 5 ltac:(lia)) as Hmod.
  fold K in Hdm.
  assert (HK1 : v * (6 * n) <= v * (5 * K))
    by (apply Z.mul_le_mono_nonneg_l; lia).
  assert (HK2 : v * (5 * K) <= v * (6 * n + 4))
    by (apply Z.mul_le_mono_nonneg_l; lia).
  assert (HM : 5 * M = 4 * (v * n) * (6 * 2 ^ 52 - 1)) by (subst M; lia).
  split.
  - intros Hm2 Hnear. split.
    + destruct (Z.eq_dec v 1) as [-> | Hne]; lia.
    + assert (M / 2 ^ 52 < K * (4 * v)); [|lia].
      apply Z.div_lt_upper_bound; lia.
  - intros Hlong Hm2 Hnear.
    assert (Hv2 : 2 <= v).
    { destruct (Z.eq_dec v 1) as [-> | Hne]; lia. }
    split; [exact Hv2|]. split.
    + lia.
    + assert (M / 2 ^ 53 < K * (2 * v)); [|lia].
      apply Z.div_lt_upper_bound; lia.
Qed.

(** For every whole number of minutes below three times two to the 49th,
    the double product with the literal, rounded up, is the exact ceiling
    of six fifths. *)
Lemma double_fallback_below (n : Z) :
  1 <= n < 3 * 2 ^ 49 -> double_fallback n = Some ((6 * n + 4) / 5).
Proof.
  intros [Hn1 Hn2]. destruct n as [|np|np]; try lia.
  pose proof (digits2_pos_bounds np) as [Hlo Hhi].
  remember (Zpos (digits2_pos np)) as d eqn:Hd. symmetry in Hd.
  assert (Hd1 : 1 <= d) by lia.
  assert (Hd2 : d <= 51).
  { destruct (Z_le_gt_dec d 51) as [|Hgt]; [assumption|].
    assert (2 ^ 51 <= 2 ^ (d - 1)) by (apply Z.pow_le_mono_r; lia). lia. }
  destruct (double_of_Z_short np d Hd ltac:(lia)) as [N [HN [HNv HNb]]].
  set (v := 2 ^ (51 - d)).
  assert (Hv : 1 <= v) by (subst v; pose proof (Z.pow_pos_nonneg 2 (51 - d)); lia).
  assert (H4 : 2 ^ (53 - d) = 4 * v).
  { subst v. replace (53 - d) with (2 + (51 - d)) by lia.
    rewrite Z.pow_add_r by lia. reflexivity. }
  assert (H2 : 2 ^ (52 - d) = 2 * v).
  { subst v. replace (52 - d) with (1 + (51 - d)) by lia.
    rewrite Z.pow_add_r by lia. reflexivity. }
  assert (H1 : 2 <= v -> 0 < 51 - d).
  { intros Hv2. destruct (Z.eq_dec d 51) as [-> | ]; [|lia].
    subst v. cbn in Hv2. lia. }
  rewrite H4 in HNv.
  unfold double_fallback. rewrite HN, double_1_2_bits.
  cbn [SFmul xorb].
  set (M := (N * 5404319552844595)%positive) in *.
  assert (HM : Zpos M = Zpos np * (4 * v) * 5404319552844595)
    by (rewrite <- HNv; reflexivity).
  assert (HMb : 2 ^ 104 <= Zpos M < 2 ^ 106) by lia.
  assert (Hceil : forall m e G,
            0 < G -> e < 0 -> 2 ^ (- e) = G ->
            ((6 * Zpos np + 4) / 5 - 1) * G < Zpos m <= (6 * Zpos np + 4) / 5 * G ->
            double_ceil (S754_finite false m e) = Some ((6 * Zpos np + 4) / 5)).
  { intros m e G HG He HeG Hm. cbn [double_ceil]. f_equal.
    destruct e as [|e|e]; try lia.
    replace (Z.neg e) with (- Zpos e) in HeG by lia.
    rewrite Z.opp_involutive in HeG. rewrite HeG.
    apply ceiling_quotient; lia. }
  destruct (Z_lt_le_dec (Zpos M) (2 ^ 105)) as [Hshort | Hlong].
  - destruct (binary_round_aux_long M (d - 53 + -52) 52) as [m [e [Hr Hme]]].
    + apply digits2_pos_unique. lia.
    + lia.
    + rewrite Hr. destruct Hme as [[He [Hm Hnear]] | [He Hm]].
      * destruct (six_fifths_rounded (Zpos np) v (Zpos m) Hv ltac:(lia) ltac:(lia))
          as [Hround _].
        rewrite <- HM in Hround. specialize (Hround Hm Hnear).
        apply (Hceil m e (4 * v)); try lia.
        rewrite <- H4. f_equal. lia.
      * destruct (six_fifths_rounded (Zpos np) v (2 * Zpos m) Hv
                    ltac:(lia) ltac:(lia)) as [Hround _].
        rewrite <- HM in Hround.
        assert (Hrem : Zpos M < (Zpos M / 2 ^ 52 + 1) * 2 ^ 52).
        { pose proof (Z.div_mod (Zpos M) (2 ^ 52) ltac:(lia)).
          pose proof (Z.mod_pos_bound (Zpos M) (2 ^ 52) ltac:(lia)). lia. }
        specialize (Hround ltac:(lia) ltac:(lia)).
        apply (Hceil m e (2 * v)); try lia.
        rewrite <- H2. f_equal. lia.
  - destruct (binary_round_aux_long M (d - 53 + -52) 53) as [m [e [Hr Hme]]].
    + apply digits2_pos_unique. lia.
    + lia.
    + rewrite Hr. destruct Hme as [[He [Hm Hnear]] | [He Hm]].
      * destruct (six_fifths_rounded (Zpos np) v (Zpos m) Hv ltac:(lia) ltac:(lia))
          as [_ Hround].
        rewrite <- HM in Hround. destruct (Hround Hlong Hm Hnear) as [Hv2 Hb].
        apply (Hceil m e (2 * v)); try lia.
        rewrite <- H2. f_equal. lia.
      * destruct (six_fifths_rounded (Zpos np) v (2 * Zpos m) Hv
                    ltac:(lia) ltac:(lia)) as [_ Hround].
        rewrite <- HM in Hround.
        assert (Hrem : Zpos M < (Zpos M / 2 ^ 53 + 1) * 2 ^ 53).
        { pose proof (Z.div_mod (Zpos M) (2 ^ 53) ltac:(lia)).
          pose proof (Z.mod_pos_bound (Zpos M) (2 ^ 53) ltac:(lia)). lia. }
        destruct (Hround Hlong ltac:(lia) ltac:(lia)) as [Hv2 Hb].
        specialize (H1 Hv2).
        apply (Hceil m e v); try lia.
        subst v. f_equal. lia.
Qed.

End DoubleRounding.

(** The ceiling in integer arithmetic. *)
Lemma ceil_120_percent_formula n : ceil_120_percent n = ((6 * n + 4) / 5)%Z.
Proof.
  unfold ceil_120_percent, Qceiling, Qfloor, Qopp, Qmult, inject_Z.
  cbn [Qnum Qden Pos.mul]. Z.div_mod_to_equations. lia.
Qed.

Lemma ceil_120_percent_positive n : (0 < n)%Z -> (0 < ceil_120_percent n)%Z.
Proof.
  intros H. rewrite ceil_120_percent_formula.
  apply Z.div_str_pos. lia.
Qed.

Lemma positive_integer_num_of_Z z :
  (0 < z)%Z -> positive_integer (Some (JNum (num_of_Z z))) = true.
Proof.
  intros H. unfold positive_integer, num_of_Z, inject_Z. cbn [Qnum Qden].
  rewrite Z.mod_1_r. apply andb_true_intro. split.
  - now apply Z.ltb_lt.
  - reflexivity.
Qed.

(** The fallback of a whole number of minutes is the binary64 product with
    the literal, rounded up. *)
Lemma fallback_minutes_whole n :
  Estimation.fallback_minutes (num_of_Z n) = ceil_of_product n.
Proof. reflexivity. Qed.

(** Below 1688849860263936 minutes the product rounded up is the exact
    ceiling. *)
Lemma ceil_of_product_exact n :
  (1 <= n < tie_minutes)%Z -> ceil_of_product n = num_of_Z (ceil_120_percent n).
Proof.
  intros H.
  assert (Hd : double_fallback n = Some (ceil_120_percent n)).
  { rewrite ceil_120_percent_formula. apply double_fallback_below. exact H. }
  unfold ceil_of_product, Math_ceil. unfold double_fallback in Hd.
  now rewrite Hd.
Qed.

Lemma truthy_false_falsy (v : value) : truthy v = false <-> falsy v.
Proof.
  split.
  - destruct v as [[| b | [| s | q] | str | l | ms]|]; cbn; intros H;
      try discriminate; try constructor.
    + subst b. constructor.
    + apply negb_false_iff, Qeq_bool_eq in H. exact H.
    + apply negb_false_iff, String.eqb_eq in H. subst str. constructor.
  - intros H. destruct H; cbn; try reflexivity.
    apply negb_false_iff, Qeq_bool_iff. assumption.
Qed.

Lemma truthy_true_not_falsy (v : value) : truthy v = true <-> ~ falsy v.
Proof.
  rewrite <- truthy_false_falsy. destruct (truthy v); split; intros H;
    try reflexivity; try discriminate.
  - contradiction H. reflexivity.
Qed.

(** ** The estimation service *)

Module EstimationFacts.
Import Estimation.

Section Facts.

Variable create : string -> number -> completion response.
Variable JSON_parse : string -> completion json.

(** No exception leaves [calculateRealTime], whatever the collaborators do. *)
Lemma calculateRealTime_returns taskName estimatedTime :
  exists log r,
    calculateRealTime create JSON_parse taskName estimatedTime = (log, Return r).
Proof.
  unfold calculateRealTime.
  destruct (outer_try create JSON_parse taskName estimatedTime) as [log [r|e]];
    eauto.
Qed.

Lemma outer_try_failed taskName estimatedTime e :
  (response <- create taskName estimatedTime ;; first_content response) = Throw e ->
  calculateRealTime create JSON_parse taskName estimatedTime =
    ([OpenAIApiErrorLogged e],
     Return {| realTime := Some (JNum (fallback_minutes estimatedTime));
               explanation := Some (JStr api_error_explanation) |}).
Proof.
  intros H. unfold calculateRealTime, outer_try. rewrite H. reflexivity.
Qed.

Lemma outer_try_content taskName estimatedTime r content :
  create taskName estimatedTime = Return r ->
  first_content r = Return content ->
  calculateRealTime create JSON_parse taskName estimatedTime =
    inner_try JSON_parse estimatedTime content.
Proof.
  intros Hc Hf. unfold calculateRealTime, outer_try. rewrite Hc. cbn [bind].
  rewrite Hf. unfold inner_try.
  destruct (parse_branch JSON_parse estimatedTime content); reflexivity.
Qed.

(** The decoded value went through: each field is the decoded one when it
    is truthy and the fallback otherwise; [null] has no fields to read and
    ends in the handler, with the same two fallbacks. *)
Lemma inner_try_decoded estimatedTime content result :
  JSON_parse content = Return result ->
  snd (inner_try JSON_parse estimatedTime content) =
    Return {| realTime :=
                if truthy (field result "realTime") then field result "realTime"
                else Some (JNum (fallback_minutes estimatedTime));
              explanation :=
                if truthy (field result "explanation")
                then field result "explanation"
                else Some (JStr overhead_explanation) |}.
Proof.
  intros H. unfold inner_try, parse_branch. rewrite H. cbn [bind].
  destruct result; reflexivity.
Qed.

Lemma inner_try_undecodable estimatedTime content e :
  JSON_parse content = Throw e ->
  inner_try JSON_parse estimatedTime content =
    ([JsonParseErrorLogged e],
     Return {| realTime := Some (JNum (fallback_minutes estimatedTime));
               explanation := Some (JStr overhead_explanation) |}).
Proof.
  intros H. unfold inner_try, parse_branch. rewrite H. reflexivity.
Qed.

End Facts.

End EstimationFacts.

Module EstimationSpec.
Import Estimation EstimationFacts.

(** C1, counterexample. For an estimate of 1688849860263936 minutes and a
    request that fails, the returned [realTime] is 2026619832316723, while
    the ceiling of the estimate times 1.2 is 2026619832316724: the product
    is rounded to a double before it is rounded up. *)
Lemma estimate_call_failure_rounds_down :
  calculateRealTime unreachable (decodes negative_reply_text negative_reply)
    "Write report" (num_of_Z tie_minutes) =
    ([OpenAIApiErrorLogged ApiError],
     Return {| realTime := Some (JNum (num_of_Z tie_fallback));
               explanation := Some (JStr api_error_explanation) |}) /\
  ceil_120_percent tie_minutes = (tie_fallback + 1)%Z /\
  (0 < tie_minutes)%Z.
Proof. repeat split; vm_compute; reflexivity. Qed.

(** C1, amended. For a non-empty task name and a positive whole number of
    minutes, when the completion request fails (the awaited call rejects, or
    the response has no first choice to read) [calculateRealTime] returns
    normally, nothing is thrown to the caller, the explanation is the fixed
    API-error one and [realTime] is [Math.ceil(estimatedMinutes * 1.2)] as
    double arithmetic computes it; for estimates below 1688849860263936
    minutes that is the exact [ceil(estimatedMinutes * 1.2)]. *)
Theorem estimate_call_failure_fallback
  (create : string -> number -> completion response)
  (JSON_parse : string -> completion json)
  (taskName : string) (estimatedMinutes : Z) (e : error) :
  taskName <> "" ->
  (0 < estimatedMinutes)%Z ->
  create taskName (num_of_Z estimatedMinutes) = Throw e \/
  (create taskName (num_of_Z estimatedMinutes) = Return [] /\ e = TypeError) ->
  calculateRealTime create JSON_parse taskName (num_of_Z estimatedMinutes) =
    ([OpenAIApiErrorLogged e],
     Return {| realTime := Some (JNum (ceil_of_product estimatedMinutes));
               explanation := Some (JStr api_error_explanation) |}) /\
  ((estimatedMinutes < tie_minutes)%Z ->
   ceil_of_product estimatedMinutes = num_of_Z (ceil_120_percent estimatedMinutes)).
Proof.
  intros _ Hpos Hfail. split.
  - rewrite <- fallback_minutes_whole.
    apply outer_try_failed.
    destruct Hfail as [H | [H He]]; rewrite H; cbn; congruence.
  - intros Hweek. apply ceil_of_product_exact. lia.
Qed.

Lemma estimate_call_failure_fallback_witness :
  calculateRealTime unreachable (decodes negative_reply_text negative_reply)
    "Write report" (num_of_Z 60) =
    ([OpenAIApiErrorLogged ApiError],
     Return {| realTime := Some (JNum (num_of_Z 72));
               explanation := Some (JStr api_error_explanation) |}) /\
  calculateRealTime (fun _ _ => Return [])
    (decodes negative_reply_text negative_reply) "Write report" (num_of_Z 60) =
    ([OpenAIApiErrorLogged TypeError],
     Return {| realTime := Some (JNum (num_of_Z 72));
               explanation := Some (JStr api_error_explanation) |}).
Proof.
  split.
  - destruct (estimate_call_failure_fallback unreachable
                (decodes negative_reply_text negative_reply)
                "Write report" 60 ApiError) as [Hcall Hweek].
    + discriminate.
    + reflexivity.
    + left. reflexivity.
    + rewrite Hcall, Hweek by reflexivity. reflexivity.
  - destruct (estimate_call_failure_fallback (fun _ _ => Return [])
                (decodes negative_reply_text negative_reply)
                "Write report" 60 TypeError) as [Hcall Hweek].
    + discriminate.
    + reflexivity.
    + right. split; reflexivity.
    + rewrite Hcall, Hweek by reflexivity. reflexivity.
Defined.

(** C2, counterexample. For an estimate of 1688849860263936 minutes and a
    reply that does not decode, the returned [realTime] is
    2026619832316723, one less than the ceiling of the estimate times
    1.2. *)
Lemma estimate_parse_failure_rounds_down :
  snd (calculateRealTime (answers garbled_text)
         (decodes negative_reply_text negative_reply)
         "Write report" (num_of_Z tie_minutes)) =
    Return {| realTime := Some (JNum (num_of_Z tie_fallback));
              explanation := Some (JStr overhead_explanation) |} /\
  ceil_120_percent tie_minutes = (tie_fallback + 1)%Z /\
  (0 < tie_minutes)%Z.
Proof. repeat split; vm_compute; reflexivity. Qed.

(** C2, amended. For a positive whole number of minutes and a response
    whose first choice was read, let the fallback be
    [Math.ceil(estimatedMinutes * 1.2)] as double arithmetic computes it,
    which for estimates below 1688849860263936 minutes is the exact
    [ceil(estimatedMinutes * 1.2)]. When the text does not decode, the
    result is the fallback with the parse-fallback explanation. When it
    decodes, each of the two fields is its own fallback (the minutes, the
    overhead explanation) if the decoded field is missing, [null], [false],
    zero, NaN or the empty string, and the decoded field, unchanged,
    otherwise, independently of the other field. *)
Theorem estimate_decoding_fallbacks
  (create : string -> number -> completion response)
  (JSON_parse : string -> completion json)
  (taskName : string) (estimatedMinutes : Z) (r : response) (content : string) :
  (0 < estimatedMinutes)%Z ->
  create taskName (num_of_Z estimatedMinutes) = Return r ->
  first_content r = Return content ->
  let fallback := Some (JNum (ceil_of_product estimatedMinutes)) in
  let returned :=
    snd (calculateRealTime create JSON_parse taskName (num_of_Z estimatedMinutes)) in
  (forall e, JSON_parse content = Throw e ->
     returned = Return {| realTime := fallback;
                          explanation := Some (JStr overhead_explanation) |}) /\
  (forall result, JSON_parse content = Return result ->
     exists answer,
       returned = Return answer /\
       (falsy (field result "realTime") -> realTime answer = fallback) /\
       (~ falsy (field result "realTime") ->
        realTime answer = field result "realTime") /\
       (falsy (field result "explanation") ->
        explanation answer = Some (JStr overhead_explanation)) /\
       (~ falsy (field result "explanation") ->
        explanation answer = field result "explanation")) /\
  ((estimatedMinutes < tie_minutes)%Z ->
   fallback = Some (JNum (num_of_Z (ceil_120_percent estimatedMinutes)))).
Proof.
  intros Hpos Hc Hf fallback returned. subst fallback returned.
  rewrite (outer_try_content create JSON_parse _ _ _ _ Hc Hf).
  rewrite <- fallback_minutes_whole. split; [|split].
  - intros e He. rewrite (inner_try_undecodable _ _ _ _ He). reflexivity.
  - intros result Hr. eexists. split.
    + apply inner_try_decoded, Hr.
    + cbn [realTime explanation]. repeat split; intros H.
      * apply truthy_false_falsy in H. now rewrite H.
      * apply truthy_true_not_falsy in H. now rewrite H.
      * apply truthy_false_falsy in H. now rewrite H.
      * apply truthy_true_not_falsy in H. now rewrite H.
  - intros Hweek. rewrite fallback_minutes_whole, ceil_of_product_exact by lia.
    reflexivity.
Qed.

Lemma estimate_decoding_fallbacks_witness :
  snd (calculateRealTime (answers garbled_text)
         (decodes zero_reply_text zero_reply) "Write report" (num_of_Z 60)) =
    Return {| realTime := Some (JNum (num_of_Z 72));
              explanation := Some (JStr overhead_explanation) |} /\
  snd (calculateRealTime (answers zero_reply_text)
         (decodes zero_reply_text zero_reply) "Write report" (num_of_Z 60)) =
    Return {| realTime := Some (JNum (num_of_Z 72));
              explanation := Some (JStr overhead_explanation) |} /\
  snd (calculateRealTime (answers fractional_reply_text)
         (decodes fractional_reply_text fractional_reply)
         "Write report" (num_of_Z 60)) =
    Return {| realTime := Some (JNum (Num (3 # 2)));
              explanation := Some (JStr overhead_explanation) |} /\
  snd (calculateRealTime (answers ninety_reply_text)
         (decodes ninety_reply_text ninety_reply) "Write report" (num_of_Z 60)) =
    Return {| realTime := Some (JNum (Num 90));
              explanation := Some (JStr "includes review buffer") |}.
Proof.
  split; [|split; [|split]].
  - destruct (estimate_decoding_fallbacks (answers garbled_text)
                (decodes zero_reply_text zero_reply) "Write report" 60
                [Some garbled_text] garbled_text eq_refl eq_refl eq_refl)
      as [Hthrow [_ Hweek]].
    rewrite (Hthrow SyntaxError eq_refl), Hweek by reflexivity. reflexivity.
  - destruct (estimate_decoding_fallbacks (answers zero_reply_text)
                (decodes zero_reply_text zero_reply) "Write report" 60
                [Some zero_reply_text] zero_reply_text eq_refl eq_refl eq_refl)
      as [_ [Hdecoded Hweek]].
    destruct (Hdecoded zero_reply eq_refl)
      as [[minutes words] [Hreturned [Hminutes [_ [Hwords _]]]]].
    rewrite Hreturned. cbn [realTime explanation] in Hminutes, Hwords.
    rewrite Hminutes, Hwords, Hweek.
    + reflexivity.
    + reflexivity.
    + apply falsy_empty.
    + apply falsy_zero. reflexivity.
  - destruct (estimate_decoding_fallbacks (answers fractional_reply_text)
                (decodes fractional_reply_text fractional_reply) "Write report" 60
                [Some fractional_reply_text] fractional_reply_text eq_refl eq_refl eq_refl)
      as [_ [Hdecoded _]].
    destruct (Hdecoded fractional_reply eq_refl)
      as [[minutes words] [Hreturned [_ [Hminutes [Hwords _]]]]].
    rewrite Hreturned. cbn [realTime explanation] in Hminutes, Hwords.
    rewrite Hminutes, Hwords.
    + reflexivity.
    + apply falsy_missing.
    + intros H. inversion H as [| | | q Hq | |]. discriminate Hq.
  - destruct (estimate_decoding_fallbacks (answers ninety_reply_text)
                (decodes ninety_reply_text ninety_reply) "Write report" 60
                [Some ninety_reply_text] ninety_reply_text eq_refl eq_refl eq_refl)
      as [_ [Hdecoded _]].
    destruct (Hdecoded ninety_reply eq_refl)
      as [[minutes words] [Hreturned [_ [Hminutes [_ Hwords]]]]].
    rewrite Hreturned. cbn [realTime explanation] in Hminutes, Hwords.
    rewrite Hminutes, Hwords.
    + reflexivity.
    + intros H. inversion H.
    + intros H. inversion H as [| | | q Hq | |]. discriminate Hq.
Defined.

(** C9, counterexample. The collaborator answers
    [{"realTime": -5, "explanation": "hurry"}] for a 60 minute task: the
    returned [realTime] is -5, which is not a positive integer. *)
Lemma estimate_returns_negative_minutes :
  snd (calculateRealTime (answers negative_reply_text)
         (decodes negative_reply_text negative_reply)
         "Write report" (num_of_Z 60)) =
    Return {| realTime := Some (JNum (Num (-5 # 1)));
              explanation := Some (JStr "hurry") |} /\
  positive_integer (Some (JNum (Num (-5 # 1)))) = false.
Proof. split; reflexivity. Qed.

(** C9, amended. For a non-empty task name and a positive whole number of
    minutes [calculateRealTime] always returns. The [realTime] it returns
    is the fallback [Math.ceil(estimatedMinutes * 1.2)] when the request
    fails, when the reply does not decode and when the decoded [realTime]
    is missing, [null], [false], zero, NaN or the empty string; in every
    other case it is the decoded [realTime] field as it is, whatever it
    holds. For estimates below 1688849860263936 minutes the fallback is the
    exact [ceil(estimatedMinutes * 1.2)], a positive integer. *)
Theorem estimate_minutes_positive_or_passed_through
  (create : string -> number -> completion response)
  (JSON_parse : string -> completion json)
  (taskName : string) (estimatedMinutes : Z) :
  taskName <> "" ->
  (0 < estimatedMinutes)%Z ->
  let fallback := Some (JNum (ceil_of_product estimatedMinutes)) in
  exists log returned,
    calculateRealTime create JSON_parse taskName (num_of_Z estimatedMinutes) =
      (log, Return returned) /\
    (forall e,
       (response <- create taskName (num_of_Z estimatedMinutes) ;;
        first_content response) = Throw e ->
       realTime returned = fallback) /\
    (forall r content,
       create taskName (num_of_Z estimatedMinutes) = Return r ->
       first_content r = Return content ->
       (forall e, JSON_parse content = Throw e -> realTime returned = fallback) /\
       (forall result, JSON_parse content = Return result ->
          (falsy (field result "realTime") -> realTime returned = fallback) /\
          (~ falsy (field result "realTime") ->
           realTime returned = field result "realTime"))) /\
    ((estimatedMinutes < tie_minutes)%Z ->
     fallback = Some (JNum (num_of_Z (ceil_120_percent estimatedMinutes))) /\
     (0 < ceil_120_percent estimatedMinutes)%Z /\
     positive_integer fallback = true).
Proof.
  intros _ Hpos fallback.
  assert (Hweek : (estimatedMinutes < tie_minutes)%Z ->
            fallback = Some (JNum (num_of_Z (ceil_120_percent estimatedMinutes))) /\
            (0 < ceil_120_percent estimatedMinutes)%Z /\
            positive_integer fallback = true).
  { intros Hle. subst fallback. rewrite ceil_of_product_exact by lia.
    repeat split.
    - now apply ceil_120_percent_positive.
    - now apply positive_integer_num_of_Z, ceil_120_percent_positive. }
  subst fallback. rewrite <- fallback_minutes_whole in *.
  destruct (create taskName (num_of_Z estimatedMinutes)) as [r|e] eqn:Hc.
  - destruct (first_content r) as [content|e] eqn:Hf.
    + rewrite (outer_try_content create JSON_parse _ _ _ _ Hc Hf).
      destruct (JSON_parse content) as [result|e] eqn:Hp.
      * pose proof (inner_try_decoded JSON_parse
                      (num_of_Z estimatedMinutes) _ _ Hp) as Hd.
        destruct (inner_try JSON_parse (num_of_Z estimatedMinutes) content)
          as [log out].
        cbn [snd] in Hd. subst out. eexists _, _. split; [reflexivity|].
        cbn [realTime]. split; [|split; [|exact Hweek]].
        -- cbn [bind]. intros e He. congruence.
        -- intros r' content' Hr' Hc'.
           injection Hr' as <-. rewrite Hf in Hc'. injection Hc' as <-.
           rewrite Hp. split.
           ++ discriminate.
           ++ intros result' Hres. injection Hres as <-. split; intros H.
              ** apply truthy_false_falsy in H. now rewrite H.
              ** apply truthy_true_not_falsy in H. now rewrite H.
      * rewrite (inner_try_undecodable _ _ _ _ Hp).
        eexists _, _. split; [reflexivity|].
        cbn [realTime]. split; [|split; [|exact Hweek]].
        -- reflexivity.
        -- intros r' content' Hr' Hc'.
           injection Hr' as <-. rewrite Hf in Hc'. injection Hc' as <-.
           rewrite Hp. split.
           ++ reflexivity.
           ++ discriminate.
    + rewrite (outer_try_failed create JSON_parse _ _ e).
      * eexists _, _. split; [reflexivity|].
        cbn [realTime]. split; [|split; [|exact Hweek]].
        -- reflexivity.
        -- intros r' content' Hr' Hc'.
           injection Hr' as <-. rewrite Hf in Hc'. discriminate.
      * rewrite Hc. exact Hf.
  - rewrite (outer_try_failed create JSON_parse _ _ e).
    + eexists _, _. split; [reflexivity|].
      cbn [realTime]. split; [|split; [|exact Hweek]].
      * reflexivity.
      * discriminate.
    + rewrite Hc. reflexivity.
Qed.

Lemma estimate_minutes_positive_or_passed_through_witness :
  (exists log returned,
     calculateRealTime (answers negative_reply_text)
       (decodes negative_reply_text negative_reply)
       "Write report" (num_of_Z 60) = (log, Return returned) /\
     realTime returned = Some (JNum (Num (-5 # 1)))) /\
  (exists log returned,
     calculateRealTime (answers zero_reply_text)
       (decodes zero_reply_text zero_reply)
       "Write report" (num_of_Z 60) = (log, Return returned) /\
     realTime returned = Some (JNum (num_of_Z 72)) /\
     positive_integer (realTime returned) = true) /\
  (exists log returned,
     calculateRealTime (answers garbled_text)
       (decodes zero_reply_text zero_reply)
       "Write report" (num_of_Z 60) = (log, Return returned) /\
     realTime returned = Some (JNum (num_of_Z 72))) /\
  (exists log returned,
     calculateRealTime unreachable (decodes zero_reply_text zero_reply)
       "Write report" (num_of_Z 60) = (log, Return returned) /\
     realTime returned = Some (JNum (num_of_Z 72))).
Proof.
  assert (Hname : "Write report" <> "") by discriminate.
  split; [|split; [|split]].
  - destruct (estimate_minutes_positive_or_passed_through
                (answers negative_reply_text)
                (decodes negative_reply_text negative_reply) "Write report" 60 Hname eq_refl)
      as [log [returned [Hreturned [_ [Hread _]]]]].
    exists log, returned. split; [exact Hreturned|].
    destruct (Hread [Some negative_reply_text] negative_reply_text
                eq_refl eq_refl) as [_ Hdecoded].
    destruct (Hdecoded negative_reply eq_refl) as [_ Hpassed].
    apply Hpassed.
    intros H. inversion H as [| | | q Hq | |]. discriminate Hq.
  - destruct (estimate_minutes_positive_or_passed_through
                (answers zero_reply_text)
                (decodes zero_reply_text zero_reply) "Write report" 60 Hname eq_refl)
      as [log [returned [Hreturned [_ [Hread Hweek]]]]].
    exists log, returned. split; [exact Hreturned|].
    destruct (Hread [Some zero_reply_text] zero_reply_text eq_refl eq_refl)
      as [_ Hdecoded].
    destruct (Hdecoded zero_reply eq_refl) as [Hfalsy _].
    destruct Hweek as [Hexact [_ Hpositive]]; [reflexivity|].
    rewrite Hfalsy by (apply falsy_zero; reflexivity).
    split; [exact Hexact | exact Hpositive].
  - destruct (estimate_minutes_positive_or_passed_through
                (answers garbled_text)
                (decodes zero_reply_text zero_reply) "Write report" 60 Hname eq_refl)
      as [log [returned [Hreturned [_ [Hread Hweek]]]]].
    exists log, returned. split; [exact Hreturned|].
    destruct (Hread [Some garbled_text] garbled_text eq_refl eq_refl)
      as [Hthrown _].
    destruct Hweek as [Hexact _]; [reflexivity|].
    rewrite (Hthrown SyntaxError eq_refl). exact Hexact.
  - destruct (estimate_minutes_positive_or_passed_through
                unreachable
                (decodes zero_reply_text zero_reply) "Write report" 60 Hname eq_refl)
      as [log [returned [Hreturned [Hfailed [_ Hweek]]]]].
    exists log, returned. split; [exact Hreturned|].
    destruct Hweek as [Hexact _]; [reflexivity|].
    rewrite (Hfailed ApiError eq_refl). exact Hexact.
Defined.

End EstimationSpec.

(** ** The timer controller *)

Lemma replace_task_idempotent (by_ : Task) (ts : list Task) :
  replace_task by_ (replace_task by_ ts) = replace_task by_ ts.
Proof.
  unfold replace_task. rewrite map_map. apply map_ext. intros t.
  destruct (String.eqb (id t) (id by_)) eqn:E.
  - now rewrite String.eqb_refl.
  - now rewrite E.
Qed.



(** C3. While some task [A] is active, [startTimer B] for a task with
    another id only shows the warning: the list (hence the rows of [A] and
    of [B]), the active task, the timer handle, the live intervals and the
    stored list are what they were. *)
Theorem startTimer_rejects_other_task (st : State) (A B : Task) :
  activeTask st = Some A ->
  id B <> id A ->
  let st' := startTimer B st in
  effects st' = (effects st ++ [Alert "警告" "既に実行中のタスクがあります"])%list /\
  activeTask st' = Some A /\
  tasks st' = tasks st /\
  timer st' = timer st /\
  intervals st' = intervals st /\
  next_handle st' = next_handle st /\
  storage st' = storage st /\
  editingTask st' = editingTask st.
Proof.
  intros HA Hid st'. subst st'. unfold startTimer. rewrite HA.
  destruct (String.eqb (id A) (id B)) eqn:E.
  - apply String.eqb_eq in E. congruence.
  - cbn. rewrite HA. repeat split; reflexivity.
Qed.

Lemma startTimer_rejects_other_task_witness :
  let st := startTimer report (listing [report; review]) in
  let st' := startTimer review st in
  effects st' = (effects st ++ [Alert "警告" "既に実行中のタスクがあります"])%list /\
  activeTask st' = Some (with_timer report true false (Some (Num 300))) /\
  tasks st' = tasks st /\
  timer st' = timer st /\
  intervals st' = intervals st /\
  next_handle st' = next_handle st /\
  storage st' = storage st /\
  editingTask st' = editingTask st.
Proof.
  apply (startTimer_rejects_other_task
           (startTimer report (listing [report; review]))
           (with_timer report true false (Some (Num 300))) review).
  - reflexivity.
  - discriminate.
Defined.


(** Such a row arises on the screen: a task entered with 0 minutes while
    the estimation falls back (0 real minutes) is started and paused, which
    stores 0 remaining seconds; it is then edited to 5 minutes (6 real
    minutes, the timer fields kept) and resumed from its row. *)
Lemma stored_zero_row_on_screen :
  let toS := fun _ : number => "0" in
  let st1 := addAndAccept (Num 0) api_error_note "1" (set_inputs "Plan" "0" initial) in
  let st2 := pauseTimer (pressStart "1" st1) in
  let st3 :=
    match entry "1" st2 with
    | Some row => set_inputs "Plan" "5" (handleEditTask toS row st2)
    | None => st2
    end in
  let st4 := addAndAccept (Num 6) api_error_note "2" st3 in
  remaining_of (entry "1" st4) = Some (Num 0) /\
  remaining_of (activeTask (pressStart "1" st4)) = Some (Num 360).
Proof. cbv zeta. split; vm_compute; reflexivity. Qed.



Lemma decrement_exact (r : Q) :
  number_eq (js_sub (or_number (Some (Num r)) (Num 0)) (Num 1)) (Num (r - 1)).
Proof.
  cbn. destruct (Qeq_bool r 0) eqn:E; cbn.
  - apply Qeq_bool_eq in E. rewrite E. reflexivity.
  - reflexivity.
Qed.

Lemma tick_storage (intervalId : N) (tasks_ : list Task) (st : State) :
  storage (tick intervalId tasks_ st) = storage st /\
  existsb is_write (effects (tick intervalId tasks_ st)) =
    existsb is_write (effects st).
Proof.
  unfold tick. destruct (activeTask st) as [current|]; [|auto].
  destruct (flag (isPaused current)); [auto|].
  destruct (js_le0 _); cbn; [|auto].
  split; [reflexivity|]. rewrite existsb_app. cbn. now rewrite orb_false_r.
Qed.



(** The completion scenario: one second left, one tick. The row keeps the
    fields it had. *)
Lemma tick_completes_at_one_second :
  let st := startTimer (with_timer report true true (Some (Num 1)))
              (listing [with_timer report true true (Some (Num 1)); review]) in
  let st' := tick 1 (tasks (listing [with_timer report true true (Some (Num 1)); review])) st in
  activeTask st' = None /\
  timer st' = None /\
  live_handles st' = [] /\
  effects st' = [Alert "完了" "Write reportが完了しました！"] /\
  tasks st' = [with_timer report true false (Some (Num 1)); review].
Proof. cbv zeta. repeat split; vm_compute; reflexivity. Qed.

(** *** No timer handle without an active task *)

Lemma stop_tick_timer (st : State) : timer (stop_tick st) = None.
Proof. unfold stop_tick. destruct (timer st) eqn:E; [reflexivity | exact E]. Qed.

Lemma stop_tick_idle (st : State) : timer st = None -> stop_tick st = st.
Proof. intros H. unfold stop_tick. now rewrite H. Qed.

Lemma pauseTimer_timer (st : State) : timer (pauseTimer st) = None.
Proof.
  unfold pauseTimer. destruct (activeTask st); cbn; apply stop_tick_timer.
Qed.

Lemma resetTimer_timer (st : State) : timer (resetTimer st) = None.
Proof.
  unfold resetTimer. destruct (activeTask st); cbn; apply stop_tick_timer.
Qed.

Lemma startTimer_no_orphan (task : Task) (st : State) :
  no_orphan_timer st -> no_orphan_timer (startTimer task st).
Proof.
  unfold no_orphan_timer, startTimer. intros H.
  destruct (match activeTask st with
            | Some active => negb (String.eqb (id active) (id task))
            | None => false
            end); cbn.
  - exact H.
  - discriminate.
Qed.

Lemma tick_no_orphan (h : N) (ts : list Task) (st : State) :
  no_orphan_timer st -> no_orphan_timer (tick h ts st).
Proof.
  unfold no_orphan_timer, tick. intros H.
  destruct (activeTask st) as [current|] eqn:Ha.
  - destruct (flag (isPaused current)).
    + rewrite Ha. discriminate.
    + destruct (js_le0 _); cbn; [reflexivity | discriminate].
  - intros _. apply H. reflexivity.
Qed.

Lemma saveTasks_frame (ok : bool) (ts : list Task) (st : State) :
  activeTask (saveTasks ok ts st) = activeTask st /\
  timer (saveTasks ok ts st) = timer st /\
  intervals (saveTasks ok ts st) = intervals st /\
  tasks (saveTasks ok ts st) = tasks st.
Proof. unfold saveTasks. destruct ok; cbn; auto. Qed.

Lemma pressAdd_frame (p : Pending) (rt : number) (now : string) (ok : bool)
  (st : State) :
  activeTask (pressAdd p rt now ok st) = activeTask st /\
  timer (pressAdd p rt now ok st) = timer st /\
  intervals (pressAdd p rt now ok st) = intervals st.
Proof.
  unfold pressAdd. cbn.
  match goal with
  | |- context [saveTasks ok ?ts ?s] =>
      destruct (saveTasks_frame ok ts s) as [Ha [Ht [Hi _]]]
  end.
  rewrite Ha, Ht, Hi. auto.
Qed.

Lemma handleDeleteTask_frame (taskId : string) (ok : bool) (st : State) :
  activeTask (handleDeleteTask taskId ok st) = activeTask st /\
  timer (handleDeleteTask taskId ok st) = timer st /\
  intervals (handleDeleteTask taskId ok st) = intervals st /\
  tasks (handleDeleteTask taskId ok st) =
    filter (fun task => negb (String.eqb (id task) taskId)) (tasks st).
Proof.
  unfold handleDeleteTask.
  match goal with
  | |- context [saveTasks ok ?ts ?s] =>
      destruct (saveTasks_frame ok ts s) as [Ha [Ht [Hi Hl]]]
  end.
  rewrite Ha, Ht, Hi, Hl. auto.
Qed.

Lemma step_no_orphan (toS : number -> string) (st : State) (ev : event) :
  no_orphan_timer st -> no_orphan_timer (step toS st ev).
Proof.
  intros H. destruct ev; cbn [step]; try exact H.
  - unfold loadTasks. destruct read as [[saved|]|e]; exact H.
  - unfold handleAddTask. destruct (_ || _); exact H.
  - destruct (pressAdd_frame p result_realTime now write_ok st) as [Ha [Ht _]].
    unfold no_orphan_timer. rewrite Ha, Ht. exact H.
  - destruct (handleDeleteTask_frame taskId write_ok st) as [Ha [Ht _]].
    unfold no_orphan_timer. rewrite Ha, Ht. exact H.
  - apply startTimer_no_orphan, H.
  - intros _. apply pauseTimer_timer.
  - intros _. apply resetTimer_timer.
  - apply tick_no_orphan, H.
Qed.

Lemma reachable_no_orphan (toS : number -> string) (st : State) :
  reachable toS st -> no_orphan_timer st.
Proof.
  induction 1 as [|st ev _ IH _].
  - intros _. reflexivity.
  - apply step_no_orphan, IH.
Qed.

Lemma pauseTimer_twice (st : State) : pauseTimer (pauseTimer st) = pauseTimer st.
Proof.
  destruct st as [n e ts ed [a|] [h|] ivs nx sto eff];
    cbv beta iota zeta delta
      [pauseTimer stop_tick setActiveTask setTasks setTimer clearInterval
       taskName estimatedTimeInput tasks editingTask activeTask timer
       intervals next_handle storage effects].
  all: try reflexivity.
  all: f_equal; apply (replace_task_idempotent (with_timer a true true (remainingTime a))).
Qed.

Lemma clearInterval_dead (h : N) (st : State) :
  is_live h st = false -> clearInterval h st = st.
Proof.
  intros H. destruct st as [n e ts ed a t ivs nx sto eff].
  unfold clearInterval, is_live in *. cbn in *. f_equal.
  induction ivs as [|i ivs IH]; [reflexivity|].
  cbn in *. apply orb_false_elim in H. destruct H as [Hi Hrest].
  rewrite Hi. cbn. f_equal. apply IH, Hrest.
Qed.

(** C6. Pausing twice leaves the state the first pause produced; in every
    state the screen can reach, resetting while no task is active changes
    nothing; and stopping the tick when no handle is held, or clearing a
    handle that is not live, changes nothing. The handlers are total: none
    of these calls fails. *)
Theorem stopping_is_idempotent (Number_toString : number -> string) (st : State) :
  pauseTimer (pauseTimer st) = pauseTimer st /\
  (reachable Number_toString st -> activeTask st = None -> resetTimer st = st) /\
  (timer st = None -> stop_tick st = st) /\
  (forall h, is_live h st = false -> clearInterval h st = st) /\
  (timer st = None -> activeTask st = None ->
     pauseTimer st = st /\ resetTimer st = st).
Proof.
  split; [apply pauseTimer_twice|]. split; [|split; [|split]].
  - intros Hr Ha. pose proof (reachable_no_orphan _ _ Hr Ha) as Ht.
    unfold resetTimer. rewrite Ha. apply stop_tick_idle, Ht.
  - apply stop_tick_idle.
  - intros h. apply clearInterval_dead.
  - intros Ht Ha. unfold pauseTimer, resetTimer. rewrite Ha.
    split; apply stop_tick_idle, Ht.
Qed.

Lemma stopping_is_idempotent_witness :
  let toS := fun _ : number => "4" in
  let first := {| handle := 1; captured_tasks := [report; review] |} in
  let st :=
    step toS
      (step toS
         (step toS
            (step toS initial (Loaded (Return (Some [report; review]))))
            (StartPressed report))
         (Ticked first))
      ResetPressed in
  reachable toS st /\ activeTask st = None /\ resetTimer st = st.
Proof.
  intros toS first st.
  assert (Hr : reachable toS st).
  { apply (reachable_step toS _ ResetPressed); [|exact I].
    apply (reachable_step toS _ (Ticked first)); [|cbn; left; reflexivity].
    apply (reachable_step toS _ (StartPressed report)); [|exact I].
    apply (reachable_step toS _ (Loaded (Return (Some [report; review]))));
      [apply reachable_initial | exact I]. }
  split; [exact Hr|]. split; [reflexivity|].
  exact (proj1 (proj2 (stopping_is_idempotent toS st)) Hr eq_refl).
Defined.

(** C7, the code at the failing input. Task [report] is running (handle 1
    held); [startTimer] is called again for its row. The guard lets the call
    through and a second interval is created while the first one stays
    live; the state variable now holds handle 2 only, so pausing or
    resetting clears the second interval and leaves the first one firing,
    and while both fire the countdown loses two seconds per second. *)
Theorem startTimer_again_leaves_two_intervals :
  let st1 := pressStart (id report) (listing [report; review]) in
  let st2 := pressStart (id report) st1 in
  live_handles st1 = [1%N] /\
  timer st1 = Some 1%N /\
  live_handles st2 = [1%N; 2%N] /\
  timer st2 = Some 2%N /\
  live_handles (pauseTimer st2) = [1%N] /\
  timer (pauseTimer st2) = None /\
  live_handles (resetTimer st2) = [1%N] /\
  remaining_of (activeTask st2) = Some (Num 300) /\
  remaining_of (activeTask (seconds 3 st2)) = Some (Num 294).
Proof. cbv zeta. repeat split; vm_compute; reflexivity. Qed.

(** ** White space and trimming *)

Lemma append_assoc (a b c : string) : ((a ++ b) ++ c = a ++ (b ++ c))%string.
Proof. induction a as [|k a IH]; cbn; [reflexivity | now rewrite IH]. Qed.

Lemma append_empty (a : string) : (a ++ "" = a)%string.
Proof. induction a as [|k a IH]; cbn; [reflexivity | now rewrite IH]. Qed.

Lemma length_append (a b : string) :
  String.length (a ++ b) = (String.length a + String.length b)%nat.
Proof. induction a as [|k a IH]; cbn; [reflexivity | now rewrite IH]. Qed.

Lemma prefix_rest_append (p s r : string) :
  prefix_rest p s = Some r <-> s = (p ++ r)%string.
Proof.
  revert s. induction p as [|a p IH]; intros s; cbn.
  - split; [intros H; now injection H | intros ->; reflexivity].
  - destruct s as [|b s]; [split; discriminate|].
    destruct (Ascii.eqb a b) eqn:E.
    + apply Ascii.eqb_eq in E. subst b. rewrite IH. split.
      * intros ->. reflexivity.
      * intros H. now injection H.
    + apply Ascii.eqb_neq in E. split; [discriminate|].
      intros H. injection H as H _. congruence.
Qed.

Lemma strip_first_some (ws : list string) (s r : string) :
  strip_first ws s = Some r -> exists w, In w ws /\ s = (w ++ r)%string.
Proof.
  induction ws as [|w ws IH]; cbn; [discriminate|].
  destruct (prefix_rest w s) as [rest|] eqn:E.
  - intros H. injection H as ->. apply prefix_rest_append in E. eauto.
  - intros H. destruct (IH H) as [w' [Hin Hs]]. eauto.
Qed.

Lemma strip_first_none (ws : list string) (s : string) :
  strip_first ws s = None ->
  forall w r, In w ws -> s <> (w ++ r)%string.
Proof.
  induction ws as [|w ws IH]; cbn; [intros _ w r []|].
  destruct (prefix_rest w s) as [rest|] eqn:E; [discriminate|].
  intros H w' r [<- | Hin] Hs.
  - apply prefix_rest_append in Hs. congruence.
  - exact (IH H w' r Hin Hs).
Qed.

Ltac each_white_space H :=
  cbn in H;
  repeat (destruct H as [H | H]; [subst|]);
  [.. | contradiction H].

Lemma white_space_not_empty (w : string) :
  In w white_space -> (1 <= String.length w)%nat.
Proof. intros H. each_white_space H; cbn; lia. Qed.

(** No white space character is the start of another. *)
Lemma strip_first_white_space (w s : string) :
  In w white_space -> strip_first white_space (w ++ s) = Some s.
Proof. intros H. each_white_space H; reflexivity. Qed.

Lemma strip_first_shorter (s r : string) :
  strip_first white_space s = Some r -> (String.length r < String.length s)%nat.
Proof.
  intros H. apply strip_first_some in H. destruct H as [w [Hin ->]].
  rewrite length_append. apply white_space_not_empty in Hin. lia.
Qed.

Lemma trimStart_steps_enough (f g : nat) (s : string) :
  (String.length s <= f)%nat -> (String.length s <= g)%nat ->
  trimStart_steps f s = trimStart_steps g s.
Proof.
  revert g s. induction f as [|f IH]; intros g s Hf Hg.
  - destruct s; [|cbn in Hf; lia]. destruct g; reflexivity.
  - destruct g as [|g].
    + destruct s; [reflexivity | cbn in Hg; lia].
    + cbn [trimStart_steps].
      destruct (strip_first white_space s) as [r|] eqn:E; [|reflexivity].
      apply strip_first_shorter in E. apply IH; lia.
Qed.

Lemma trimStart_unfold (s : string) :
  trimStart s =
    match strip_first white_space s with
    | Some rest => trimStart rest
    | None => s
    end.
Proof.
  unfold trimStart. destruct s as [|c s]; [reflexivity|].
  cbn [String.length trimStart_steps].
  destruct (strip_first white_space (String c s)) as [r|] eqn:E; [|reflexivity].
  apply strip_first_shorter in E. cbn [String.length] in E.
  apply trimStart_steps_enough; lia.
Qed.

Lemma trimStart_white_space (w s : string) :
  In w white_space -> trimStart (w ++ s) = trimStart s.
Proof.
  intros H. rewrite trimStart_unfold, (strip_first_white_space w s H).
  reflexivity.
Qed.

Lemma trimStart_fixed (s : string) :
  ~ starts_with_white_space s -> trimStart s = s.
Proof.
  intros H. rewrite trimStart_unfold.
  destruct (strip_first white_space s) as [r|] eqn:E; [|reflexivity].
  apply strip_first_some in E. destruct E as [w [Hin Hs]].
  contradiction H. exists w, r. auto.
Qed.

(** What [trimStart] removes is white space, and what it leaves does not
    start with any. *)
Lemma trimStart_removes (s : string) :
  exists b, blank b /\ s = (b ++ trimStart s)%string /\
            ~ starts_with_white_space (trimStart s).
Proof.
  remember (String.length s) as n eqn:Hn.
  assert (Hle : (String.length s <= n)%nat) by lia. clear Hn.
  revert s Hle. induction n as [|n IH]; intros s Hle.
  - destruct s; [|cbn in Hle; lia]. exists ""%string.
    split; [constructor|]. split; [reflexivity|].
    intros [w [r [Hin Hs]]]. apply white_space_not_empty in Hin.
    change (trimStart "") with ""%string in Hs.
    apply (f_equal String.length) in Hs. rewrite length_append in Hs.
    cbn in Hs. lia.
  - rewrite trimStart_unfold.
    destruct (strip_first white_space s) as [r|] eqn:E.
    + pose proof (strip_first_shorter _ _ E) as Hlt.
      apply strip_first_some in E. destruct E as [w [Hin ->]].
      destruct (IH r ltac:(lia)) as [b [Hb [Hr Hstart]]].
      exists (w ++ b)%string. split; [now constructor|].
      split; [|exact Hstart].
      rewrite append_assoc, <- Hr. reflexivity.
    + exists ""%string. split; [constructor|]. split; [reflexivity|].
      intros [w [r [Hin Hs]]].
      exact (strip_first_none _ _ E w r Hin Hs).
Qed.

Lemma trimStart_starts (s : string) : ~ starts_with_white_space (trimStart s).
Proof. destruct (trimStart_removes s) as [b [_ [_ H]]]. exact H. Qed.

Lemma blank_append (a b : string) : blank a -> blank b -> blank (a ++ b).
Proof.
  intros Ha Hb. induction Ha as [|w s Hin Hs IH]; [exact Hb|].
  rewrite append_assoc. now constructor.
Qed.

Lemma blank_trimStart (s : string) : blank s -> trimStart s = ""%string.
Proof.
  intros H. induction H as [|w s Hin Hs IH]; [reflexivity|].
  now rewrite trimStart_white_space.
Qed.

Lemma all_spaces_blank (s : string) : all_spaces s = true <-> blank s.
Proof.
  unfold all_spaces. split.
  - intros H. destruct (trimStart_removes s) as [b [Hb [Hs _]]].
    destruct (trimStart s); [|discriminate].
    rewrite append_empty in Hs. now subst.
  - intros H. now rewrite (blank_trimStart s H).
Qed.

Lemma trimStart_all_spaces (s : string) :
  all_spaces (trimStart s) = all_spaces s.
Proof.
  destruct (trimStart_removes s) as [b [Hb [Hs Hstart]]].
  unfold all_spaces at 1. rewrite (trimStart_fixed _ Hstart). reflexivity.
Qed.

Lemma trimEnd_empty (t : string) : trimEnd t = ""%string <-> all_spaces t = true.
Proof.
  destruct t as [|c rest]; [split; reflexivity|]. cbn [trimEnd].
  destruct (all_spaces (String c rest)); split;
    try reflexivity; discriminate.
Qed.

(** What [trimEnd] removes is white space. *)
Lemma trimEnd_removes (t : string) :
  exists b, blank b /\ t = (trimEnd t ++ b)%string.
Proof.
  induction t as [|c rest IH].
  - exists ""%string. split; [constructor | reflexivity].
  - cbn [trimEnd]. destruct (all_spaces (String c rest)) eqn:E.
    + exists (String c rest). split; [now apply all_spaces_blank | reflexivity].
    + destruct IH as [b [Hb Hrest]]. exists b. split; [exact Hb|].
      cbn. now rewrite <- Hrest.
Qed.

Lemma trimEnd_ends (t : string) : ~ ends_with_white_space (trimEnd t).
Proof.
  induction t as [|c rest IH]; intros [front [w [Hin Hs]]].
  - apply white_space_not_empty in Hin.
    apply (f_equal String.length) in Hs. rewrite length_append in Hs.
    cbn in Hs. lia.
  - cbn [trimEnd] in Hs. destruct (all_spaces (String c rest)) eqn:E.
    + apply white_space_not_empty in Hin.
      apply (f_equal String.length) in Hs. rewrite length_append in Hs.
      cbn in Hs. lia.
    + destruct front as [|k front]; cbn in Hs.
      * destruct (trimEnd_removes rest) as [b [Hb Hrest]].
        assert (Hblank : blank (String c rest)).
        { rewrite Hrest.
          change (String c (trimEnd rest ++ b))
            with (String c (trimEnd rest) ++ b)%string.
          rewrite Hs. now constructor. }
        apply all_spaces_blank in Hblank. congruence.
      * injection Hs as _ Hs. apply IH. exists front, w. auto.
Qed.

Lemma trimEnd_starts (t : string) :
  ~ starts_with_white_space t -> ~ starts_with_white_space (trimEnd t).
Proof.
  intros H [w [r [Hin Hs]]]. apply H.
  destruct (trimEnd_removes t) as [b [_ Ht]].
  exists w, (r ++ b)%string. split; [exact Hin|].
  rewrite <- append_assoc, <- Hs. exact Ht.
Qed.

Lemma trimEnd_twice (t : string) : trimEnd (trimEnd t) = trimEnd t.
Proof.
  induction t as [|c rest IH]; [reflexivity|]. cbn [trimEnd].
  destruct (all_spaces (String c rest)) eqn:E; [reflexivity|].
  cbn [trimEnd].
  destruct (all_spaces (String c (trimEnd rest))) eqn:E'.
  - destruct (trimEnd_removes rest) as [b [Hb Hrest]].
    assert (Hblank : blank (String c rest)).
    { rewrite Hrest.
      change (String c (trimEnd rest ++ b))
        with (String c (trimEnd rest) ++ b)%string.
      apply blank_append; [now apply all_spaces_blank | exact Hb]. }
    apply all_spaces_blank in Hblank. congruence.
  - now rewrite IH.
Qed.

Lemma trim_twice (s : string) : trim (trim s) = trim s.
Proof.
  unfold trim.
  rewrite (trimStart_fixed (trimEnd (trimStart s))).
  - apply trimEnd_twice.
  - apply trimEnd_starts, trimStart_starts.
Qed.

Lemma trim_empty_all_spaces (s : string) :
  trim s = ""%string <-> all_spaces s = true.
Proof.
  unfold trim. rewrite trimEnd_empty, trimStart_all_spaces. reflexivity.
Qed.

Lemma trim_empty (s : string) : trim s = ""%string <-> blank s.
Proof. rewrite trim_empty_all_spaces. apply all_spaces_blank. Qed.

Lemma strip_first_other (ws : list string) (c : ascii) (rest : string) :
  existsb (fun w => match w with
                    | String a _ => Ascii.eqb a c
                    | EmptyString => true
                    end) ws = false ->
  strip_first ws (String c rest) = None.
Proof.
  induction ws as [|w ws IH]; cbn; [reflexivity|].
  intros H. apply orb_false_elim in H. destruct H as [Hw Hws].
  destruct w as [|a w]; [discriminate|]. cbn. rewrite Hw. now apply IH.
Qed.

(** A string that starts with another byte than those of white space is
    left as it is. *)
Lemma trimStart_other (c : ascii) (rest : string) :
  lead_byte c = false -> trimStart (String c rest) = String c rest.
Proof.
  intros H. rewrite trimStart_unfold, strip_first_other; [reflexivity | exact H].
Qed.

Lemma all_spaces_other (c : ascii) (rest : string) :
  lead_byte c = false -> all_spaces (String c rest) = false.
Proof. intros H. unfold all_spaces. now rewrite trimStart_other. Qed.

(** What [trim] removes, at both ends, is white space. *)
Lemma trim_removes (s : string) :
  exists front back,
    blank front /\ blank back /\ s = (front ++ trim s ++ back)%string.
Proof.
  destruct (trimStart_removes s) as [front [Hfront [Hs _]]].
  destruct (trimEnd_removes (trimStart s)) as [back [Hback Ht]].
  exists front, back. split; [exact Hfront|]. split; [exact Hback|].
  unfold trim. rewrite <- Ht. exact Hs.
Qed.

Lemma string_truthy_false (s : string) : string_truthy s = false <-> s = "".
Proof.
  unfold string_truthy. split.
  - intros H. apply negb_false_iff in H. now apply String.eqb_eq.
  - intros ->. reflexivity.
Qed.

Lemma existsb_app_single {A} (f : A -> bool) (l : list A) (x : A) :
  existsb f (l ++ [x]) = existsb f l || f x.
Proof. rewrite existsb_app. cbn. now rewrite orb_false_r. Qed.

(** C8, counterexample. With a task name and the minutes text [abc], which
    is not a number, no validation alert is shown: the estimation request
    is issued, with [NaN] minutes. *)
Lemma handleAddTask_accepts_non_numeric :
  parseInt "abc" = NaN /\
  handleAddTask (set_inputs "Write report" "abc" initial) =
    (perform (EstimateRequested "Write report" NaN)
       (set_inputs "Write report" "abc" initial),
     Some {| pending_taskName := "Write report";
             pending_estimatedMinutes := NaN;
             pending_tasks := [];
             pending_editingTask := None |}).
Proof. split; reflexivity. Qed.

(** C8, amended. When the task name or the minutes text is empty after
    trimming, [handleAddTask] shows the validation alert and stops: no
    estimation request is issued and the inputs, the list, the task being
    edited, the timer and the stored list are unchanged. Any other input,
    numeric or not, passes validation: the request is issued with
    [parseInt] of the minutes text. A text is empty after trimming exactly
    when it is a sequence of white space characters. *)
Theorem handleAddTask_validates_presence (st : State) :
  (trim (taskName st) = "" \/ trim (estimatedTimeInput st) = "" ->
   handleAddTask st =
     (perform (Alert "エラー" "タスク名と予定時間を入力してください") st, None) /\
   existsb is_request (effects (fst (handleAddTask st))) =
     existsb is_request (effects st) /\
   existsb is_write (effects (fst (handleAddTask st))) =
     existsb is_write (effects st) /\
   tasks (fst (handleAddTask st)) = tasks st /\
   editingTask (fst (handleAddTask st)) = editingTask st /\
   activeTask (fst (handleAddTask st)) = activeTask st /\
   storage (fst (handleAddTask st)) = storage st /\
   taskName (fst (handleAddTask st)) = taskName st /\
   estimatedTimeInput (fst (handleAddTask st)) = estimatedTimeInput st) /\
  (trim (taskName st) <> "" -> trim (estimatedTimeInput st) <> "" ->
   handleAddTask st =
     (perform (EstimateRequested (taskName st) (parseInt (estimatedTimeInput st))) st,
      Some {| pending_taskName := taskName st;
              pending_estimatedMinutes := parseInt (estimatedTimeInput st);
              pending_tasks := tasks st;
              pending_editingTask := editingTask st |})) /\
  (forall text, trim text = "" <-> blank text).
Proof.
  split; [|split; [|exact trim_empty]].
  - intros Hempty.
    assert (Hcond : negb (string_truthy (trim (taskName st)))
                    || negb (string_truthy (trim (estimatedTimeInput st))) = true).
    { destruct Hempty as [H | H]; rewrite H; cbn.
      - reflexivity.
      - apply orb_true_r. }
    unfold handleAddTask. rewrite Hcond. cbn.
    rewrite !existsb_app_single. cbn. rewrite !orb_false_r.
    repeat split; reflexivity.
  - intros Hn He.
    assert (Hcond : negb (string_truthy (trim (taskName st)))
                    || negb (string_truthy (trim (estimatedTimeInput st))) = false).
    { apply orb_false_intro; apply negb_false_iff;
        apply not_false_is_true; intros H;
        apply string_truthy_false in H; contradiction. }
    unfold handleAddTask. rewrite Hcond. reflexivity.
Qed.

Lemma handleAddTask_validates_presence_witness :
  handleAddTask (set_inputs "   " "60" (listing [report])) =
    (perform (Alert "エラー" "タスク名と予定時間を入力してください")
       (set_inputs "   " "60" (listing [report])), None) /\
  handleAddTask (set_inputs ideographic_space "60" (listing [report])) =
    (perform (Alert "エラー" "タスク名と予定時間を入力してください")
       (set_inputs ideographic_space "60" (listing [report])), None) /\
  handleAddTask
    (set_inputs "Write report" (ideographic_space ++ "60") (listing [report])) =
    (perform (EstimateRequested "Write report" (Num 60))
       (set_inputs "Write report" (ideographic_space ++ "60") (listing [report])),
     Some {| pending_taskName := "Write report";
             pending_estimatedMinutes := Num 60;
             pending_tasks := [report];
             pending_editingTask := None |}).
Proof.
  split; [|split].
  - refine (proj1 (proj1 (handleAddTask_validates_presence
                            (set_inputs "   " "60" (listing [report]))) _)).
    left. reflexivity.
  - refine (proj1 (proj1 (handleAddTask_validates_presence
                            (set_inputs ideographic_space "60"
                               (listing [report]))) _)).
    left. reflexivity.
  - refine (proj1 (proj2 (handleAddTask_validates_presence
                            (set_inputs "Write report" (ideographic_space ++ "60")
                               (listing [report])))) _ _).
    + discriminate.
    + discriminate.
Defined.

Lemma filter_Removed (taskId : string) (ts : list Task) :
  Removed taskId ts (filter (fun task => negb (String.eqb (id task) taskId)) ts).
Proof.
  induction ts as [|t ts IH]; cbn.
  - constructor.
  - destruct (String.eqb (id t) taskId) eqn:E; cbn.
    + apply Removed_drop; [now apply String.eqb_eq | exact IH].
    + apply Removed_keep; [now apply String.eqb_neq | exact IH].
Qed.

Lemma entry_filtered (taskId : string) (ts : list Task) :
  find (fun t => String.eqb (id t) taskId)
    (filter (fun task => negb (String.eqb (id task) taskId)) ts) = None.
Proof.
  induction ts as [|t ts IH]; [reflexivity|]. cbn.
  destruct (String.eqb (id t) taskId) eqn:E; cbn; [exact IH|].
  rewrite E. exact IH.
Qed.

(** C10. [handleDeleteTask taskId] leaves in the list exactly the tasks
    whose id is not [taskId], each as it was and in the same order, and
    always issues a write of that whole list to storage. It does not look
    at the active task or the timer: after deleting the active task, the
    active task is still set, its interval is still live, and no row of the
    list shows it. *)
Theorem handleDeleteTask_removes_and_persists
  (taskId : string) (write_ok : bool) (st : State) :
  let st' := handleDeleteTask taskId write_ok st in
  Removed taskId (tasks st) (tasks st') /\
  (forall t, In t (tasks st') <-> In t (tasks st) /\ id t <> taskId) /\
  effects st' =
    (effects st ++ StorageSetItem STORAGE_KEY (tasks st') ::
       (if write_ok then [] else [Alert "エラー" "タスクの保存に失敗しました"]))%list /\
  (write_ok = true -> storage st' = Some (tasks st')) /\
  activeTask st' = activeTask st /\
  timer st' = timer st /\
  intervals st' = intervals st /\
  (forall a, activeTask st = Some a -> id a = taskId ->
     activeTask st' = Some a /\
     entry taskId st' = None /\
     live_handles st' = live_handles st).
Proof.
  intros st'. subst st'.
  destruct (handleDeleteTask_frame taskId write_ok st) as [Ha [Ht [Hi Hl]]].
  rewrite Ha, Ht, Hi, Hl.
  split; [apply filter_Removed|]. split; [|split; [|split; [|split; [|split; [|split]]]]].
  - intros t. rewrite filter_In. split.
    + intros [Hin Hne]. split; [exact Hin|].
      apply negb_true_iff in Hne. now apply String.eqb_neq.
    + intros [Hin Hne]. split; [exact Hin|].
      apply negb_true_iff. now apply String.eqb_neq.
  - unfold handleDeleteTask, saveTasks. destruct write_ok; cbn.
    + reflexivity.
    + rewrite <- app_assoc. reflexivity.
  - intros ->. reflexivity.
  - reflexivity.
  - reflexivity.
  - reflexivity.
  - intros a Hact Hid. split; [exact Hact|]. split.
    + unfold entry. rewrite Hl. apply entry_filtered.
    + unfold live_handles. now rewrite Hi.
Qed.

Lemma handleDeleteTask_removes_and_persists_witness :
  let st := pressStart (id report) (listing [report; review]) in
  let st' := handleDeleteTask (id report) true st in
  tasks st' = [review] /\
  activeTask st' = Some (with_timer report true false (Some (Num 300))) /\
  entry (id report) st' = None /\
  live_handles st' = [1%N].
Proof.
  intros st st'.
  pose proof (handleDeleteTask_removes_and_persists (id report) true st) as H.
  cbv zeta in H.
  destruct H as [_ [_ [_ [_ [_ [_ [_ H]]]]]]].
  destruct (H (with_timer report true false (Some (Num 300))) eq_refl eq_refl)
    as [Ha [He Hl]].
  split; [reflexivity|]. split; [exact Ha|]. split; [exact He | exact Hl].
Defined.


(** * Further properties of the code *)

(** ** The estimation service *)

Module EstimationMore.
Import Estimation EstimationFacts.

(** X1. Whatever the endpoint and the decoder do, [calculateRealTime]
    returns normally with a truthy explanation. At most one line is logged,
    and when one is, the result is the fallback of the handler that logged
    it. *)
Theorem estimate_always_explains
  (create : string -> number -> completion response)
  (JSON_parse : string -> completion json)
  (taskName : string) (estimatedTime : number) :
  exists log returned,
    calculateRealTime create JSON_parse taskName estimatedTime =
      (log, Return returned) /\
    truthy (explanation returned) = true /\
    (log = [] \/
     (exists e, log = [JsonParseErrorLogged e] /\
        returned = {| realTime := Some (JNum (fallback_minutes estimatedTime));
                      explanation := Some (JStr overhead_explanation) |}) \/
     (exists e, log = [OpenAIApiErrorLogged e] /\
        returned = {| realTime := Some (JNum (fallback_minutes estimatedTime));
                      explanation := Some (JStr api_error_explanation) |})).
Proof.
  destruct (response <- create taskName estimatedTime ;; first_content response)
    as [content|e] eqn:Hreq.
  - assert (Hcalc : calculateRealTime create JSON_parse taskName estimatedTime =
                    inner_try JSON_parse estimatedTime content).
    { destruct (create taskName estimatedTime) as [r|e] eqn:Hc; [|discriminate].
      cbn [bind] in Hreq. eapply outer_try_content; eauto. }
    rewrite Hcalc.
    destruct (JSON_parse content) as [result|e] eqn:Hp.
    + pose proof (inner_try_decoded JSON_parse estimatedTime _ _ Hp) as Hd.
      unfold inner_try in *.
      destruct (parse_branch JSON_parse estimatedTime content) as [r|e].
      * cbn [snd] in Hd. injection Hd as ->.
        eexists _, _. split; [reflexivity|]. split; [|left; reflexivity].
        cbn [explanation].
        destruct (truthy (field result "explanation")) eqn:Ht;
          [exact Ht | reflexivity].
      * eexists _, _. split; [reflexivity|]. split; [reflexivity|].
        right. left. eauto.
    + rewrite (inner_try_undecodable _ _ _ _ Hp).
      eexists _, _. split; [reflexivity|]. split; [reflexivity|].
      right. left. eauto.
  - rewrite (outer_try_failed create JSON_parse _ _ e Hreq).
    eexists _, _. split; [reflexivity|]. split; [reflexivity|].
    right. right. eauto.
Qed.

(** X2. For a whole number of minutes [n] from 0 and below
    1688849860263936 the fallback is the whole number [m] with
    [6n <= 5m < 6n + 5]: never below the estimate, above it as soon as the
    estimate is positive, and 0 for 0. *)
Theorem fallback_minutes_bounds (n : Z) :
  (0 <= n < tie_minutes)%Z ->
  exists m : Z,
    fallback_minutes (num_of_Z n) = num_of_Z m /\
    (6 * n <= 5 * m < 6 * n + 5)%Z /\
    (n <= m)%Z /\
    ((0 < n)%Z -> (n < m)%Z) /\
    (n = 0%Z -> m = 0%Z).
Proof.
  intros Hn. exists (ceil_120_percent n). split.
  - destruct (Z.eq_dec n 0) as [-> | Hpos]; [reflexivity|].
    rewrite fallback_minutes_whole. apply ceil_of_product_exact. lia.
  - rewrite ceil_120_percent_formula.
    pose proof (Z.div_mod (6 * n + 4) 5 ltac:(lia)) as Hdm.
    pose proof (Z.mod_pos_bound (6 * n + 4) 5 ltac:(lia)) as Hm.
    repeat split; lia.
Qed.

Lemma fallback_minutes_bounds_witness :
  exists m : Z,
    fallback_minutes (num_of_Z 7) = num_of_Z m /\
    (6 * 7 <= 5 * m < 6 * 7 + 5)%Z /\
    (7 <= m)%Z /\
    ((0 < 7)%Z -> (7 < m)%Z) /\
    ((7 = 0)%Z -> (m = 0)%Z).
Proof. apply (fallback_minutes_bounds 7). split; [discriminate | reflexivity]. Defined.

End EstimationMore.

(** X3. For every whole number of minutes from 1 to 10080 (a week), the
    double precision evaluation of [Math.ceil(n * 1.2)] gives the exact
    ceiling of six fifths of [n]. *)
Theorem binary64_fallback_is_exact (n : Z) :
  (1 <= n <= 10080)%Z ->
  double_fallback n = Some (ceil_120_percent n) /\
  double_fallback n = Some ((6 * n + 4) / 5)%Z.
Proof.
  intros Hn.
  assert (H : double_fallback n = Some ((6 * n + 4) / 5)%Z)
    by (apply double_fallback_below; lia).
  split; [|exact H]. rewrite ceil_120_percent_formula. exact H.
Qed.

Lemma binary64_fallback_is_exact_witness :
  double_fallback 60 = Some (ceil_120_percent 60) /\
  double_fallback 60 = Some ((6 * 60 + 4) / 5)%Z.
Proof. apply (binary64_fallback_is_exact 60). lia. Defined.

(** X21. For every whole number of minutes from 1 and below
    1688849860263936, three times two to the 49th, the double precision
    evaluation of [Math.ceil(n * 1.2)] gives the exact ceiling of six
    fifths of [n], a positive whole number; at 1688849860263936 itself
    the product falls halfway between two doubles, is rounded down, and
    the result is the exact ceiling less one. *)
Theorem binary64_fallback_exact_below_tie (n : Z) :
  (1 <= n < 3 * 2 ^ 49)%Z ->
  double_fallback n = Some (ceil_120_percent n) /\
  Estimation.fallback_minutes (num_of_Z n) = num_of_Z ((6 * n + 4) / 5) /\
  positive_integer (Some (JNum (Estimation.fallback_minutes (num_of_Z n)))) = true /\
  double_fallback (3 * 2 ^ 49) = Some (ceil_120_percent (3 * 2 ^ 49) - 1)%Z.
Proof.
  intros Hn.
  assert (H : double_fallback n = Some ((6 * n + 4) / 5)%Z)
    by (apply double_fallback_below; exact Hn).
  assert (Hf : Estimation.fallback_minutes (num_of_Z n) = num_of_Z ((6 * n + 4) / 5)).
  { rewrite fallback_minutes_whole. unfold ceil_of_product, Math_ceil.
    unfold double_fallback in H. now rewrite H. }
  split; [|split; [exact Hf | split]].
  - rewrite ceil_120_percent_formula. exact H.
  - rewrite Hf. apply positive_integer_num_of_Z.
    apply Z.div_str_pos. lia.
  - vm_compute. reflexivity.
Qed.

Lemma binary64_fallback_exact_below_tie_witness :
  double_fallback 1000000000007 = Some (ceil_120_percent 1000000000007) /\
  Estimation.fallback_minutes (num_of_Z 1000000000007) = num_of_Z 1200000000009.
Proof.
  destruct (binary64_fallback_exact_below_tie 1000000000007) as [H [Hf _]].
  - split; [discriminate | reflexivity].
  - split; [exact H | exact Hf].
Defined.

(** ** Trimming and validation *)

Lemma pressAdd_tasks (p : Pending) (rt : number) (now : string) (ok : bool)
  (st : State) :
  tasks (pressAdd p rt now ok st) =
    match pending_editingTask p with
    | Some editing =>
        map (fun task =>
               if String.eqb (id task) (id editing)
               then with_estimate task (trim (pending_taskName p))
                      (pending_estimatedMinutes p) rt
               else task)
            (pending_tasks p)
    | None =>
        (pending_tasks p ++
         [{| id := now; name := trim (pending_taskName p);
             estimatedTime := pending_estimatedMinutes p;
             realTime := rt;
             isRunning := None; isPaused := None; remainingTime := None |}])%list
    end.
Proof.
  unfold pressAdd. cbn.
  match goal with
  | |- context [saveTasks ok ?ts ?s] =>
      destruct (saveTasks_frame ok ts s) as [_ [_ [_ Hl]]]
  end.
  rewrite Hl. reflexivity.
Qed.

(** X4. [handleAddTask] stops at the validation alert exactly when the task
    name or the minutes text is a sequence of white space characters (the
    empty text included; the no-break and the ideographic space count as
    white space); in every other case the estimation request goes out. *)
Theorem validation_rejects_exactly_blank_input (st : State) :
  (snd (handleAddTask st) = None <->
   blank (taskName st) \/ blank (estimatedTimeInput st)) /\
  (snd (handleAddTask st) = None ->
   fst (handleAddTask st) =
     perform (Alert "エラー" "タスク名と予定時間を入力してください") st) /\
  (snd (handleAddTask st) <> None ->
   fst (handleAddTask st) =
     perform (EstimateRequested (taskName st) (parseInt (estimatedTimeInput st))) st) /\
  blank ideographic_space /\
  blank no_break_space /\
  blank (" " ++ ideographic_space ++ no_break_space).
Proof.
  assert (Hn : String.eqb (trim (taskName st)) "" = true <->
               blank (taskName st))
    by (rewrite String.eqb_eq; apply trim_empty).
  assert (He : String.eqb (trim (estimatedTimeInput st)) "" = true <->
               blank (estimatedTimeInput st))
    by (rewrite String.eqb_eq; apply trim_empty).
  assert (Hblank : blank ideographic_space /\ blank no_break_space /\
                   blank (" " ++ ideographic_space ++ no_break_space))
    by (repeat split; apply all_spaces_blank; reflexivity).
  unfold handleAddTask, string_truthy.
  destruct (String.eqb (trim (taskName st)) "");
    destruct (String.eqb (trim (estimatedTimeInput st)) ""); cbn.
  - split; [split; [intros _; left; now apply Hn | reflexivity]|].
    split; [reflexivity | split; [intros H; now contradiction H | exact Hblank]].
  - split; [split; [intros _; left; now apply Hn | reflexivity]|].
    split; [reflexivity | split; [intros H; now contradiction H | exact Hblank]].
  - split; [split; [intros _; right; now apply He | reflexivity]|].
    split; [reflexivity | split; [intros H; now contradiction H | exact Hblank]].
  - split; [split; [discriminate|]
           |split; [discriminate | split; [reflexivity | exact Hblank]]].
    intros [H | H]; [apply Hn in H | apply He in H]; discriminate.
Qed.

(** X5. The name a commit writes is the trimmed name that passed
    validation: it is the name typed without the white space before and
    after it, it is not empty, no white space character (the no-break
    and the ideographic space included) starts or ends it, and trimming it
    again changes nothing. In add mode it is the name of the one row
    appended; in edit mode it is the name of every row with the edited
    id. *)
Theorem committed_name_is_trimmed (st st1 : State) (p : Pending) :
  handleAddTask st = (st1, Some p) ->
  let n := trim (pending_taskName p) in
  pending_taskName p = taskName st /\
  (exists front back,
     blank front /\ blank back /\ taskName st = front ++ n ++ back) /\
  n <> "" /\
  ~ starts_with_white_space n /\
  ~ ends_with_white_space n /\
  trim n = n /\
  forall (rt : number) (now : string) (ok : bool) (st' : State),
    (pending_editingTask p = None ->
     exists added,
       tasks (pressAdd p rt now ok st') = (pending_tasks p ++ [added])%list /\
       name added = n) /\
    (forall editing t,
       pending_editingTask p = Some editing ->
       In t (tasks (pressAdd p rt now ok st')) ->
       id t = id editing -> name t = n).
Proof.
  intros Hadd n. subst n. unfold handleAddTask in Hadd.
  destruct (negb (string_truthy (trim (taskName st)))
            || negb (string_truthy (trim (estimatedTimeInput st)))) eqn:Hc;
    [discriminate|].
  injection Hadd as _ <-. cbn [pending_taskName pending_editingTask pending_tasks].
  apply orb_false_elim in Hc. destruct Hc as [Hn _].
  apply negb_false_iff in Hn. unfold string_truthy in Hn.
  apply negb_true_iff, String.eqb_neq in Hn.
  split; [reflexivity|]. split; [apply trim_removes|].
  split; [exact Hn|]. split; [|split; [|split]].
  - apply trimEnd_starts, trimStart_starts.
  - apply trimEnd_ends.
  - apply trim_twice.
  - intros rt now ok st'. rewrite pressAdd_tasks.
    cbn [pending_taskName pending_editingTask pending_tasks pending_estimatedMinutes].
    split.
    + intros ->. eexists. split; reflexivity.
    + intros editing t -> Hin Hid. apply in_map_iff in Hin.
      destruct Hin as [u [Hu _]].
      destruct (String.eqb (id u) (id editing)) eqn:E.
      * subst t. reflexivity.
      * subst u. apply String.eqb_neq in E. contradiction.
Qed.

Lemma committed_name_is_trimmed_witness :
  trim (ideographic_space ++ " Write report " ++ no_break_space) =
    "Write report" /\
  trim (ideographic_space ++ " Write report " ++ no_break_space) <> "" /\
  trim (trim (ideographic_space ++ " Write report " ++ no_break_space)) =
    trim (ideographic_space ++ " Write report " ++ no_break_space).
Proof.
  destruct (committed_name_is_trimmed
              (set_inputs (ideographic_space ++ " Write report " ++ no_break_space)
                 "60" initial)
              (fst (handleAddTask
                      (set_inputs
                         (ideographic_space ++ " Write report " ++ no_break_space)
                         "60" initial)))
              {| pending_taskName :=
                   ideographic_space ++ " Write report " ++ no_break_space;
                 pending_estimatedMinutes := Num 60;
                 pending_tasks := [];
                 pending_editingTask := None |}
              eq_refl) as [_ [_ [Hne [_ [_ [Htw _]]]]]].
  split; [reflexivity|]. split; [exact Hne | exact Htw].
Defined.

(** ** Printing and reading whole numbers *)

Lemma of_uint_acc_value (d : Decimal.uint) (acc : positive) :
  Z.pos (Pos.of_uint_acc d acc) = uint_value d (Z.pos acc).
Proof.
  revert acc. induction d; intros acc; cbn [Pos.of_uint_acc uint_value];
    [reflexivity | rewrite IHd; f_equal; lia ..].
Qed.

Lemma of_uint_value (d : Decimal.uint) :
  Z.of_N (Pos.of_uint d) = uint_value d 0.
Proof.
  induction d; cbn [Pos.of_uint uint_value]; try reflexivity;
    try (cbn [Z.of_N]; rewrite of_uint_acc_value; reflexivity).
  exact IHd.
Qed.

Lemma leading_digits_numeral (d : Decimal.uint) (acc : Z) :
  leading_digits 10 (DecimalString.NilEmpty.string_of_uint d) (Some acc) =
    Some (uint_value d acc).
Proof.
  revert acc. induction d; intros acc;
    cbn [DecimalString.NilEmpty.string_of_uint leading_digits uint_value];
    [reflexivity|..];
    match goal with
    | |- context [digit_value 10 ?c] =>
        let v := eval vm_compute in (digit_value 10 c) in
        change (digit_value 10 c) with v
    end;
    cbv iota beta; apply IHd.
Qed.

Ltac eval_char_tests :=
  repeat match goal with
  | |- context [digit_value ?r ?c] =>
      let v := eval vm_compute in (digit_value r c) in
      change (digit_value r c) with v
  end.

Ltac read_numeral :=
  unfold parseInt;
  cbn [DecimalString.NilEmpty.string_of_uint];
  rewrite trimStart_other by reflexivity;
  cbv beta iota zeta;
  cbn [leading_digits]; eval_char_tests; cbv beta iota;
  rewrite ?leading_digits_numeral; reflexivity.

(** Reading a numeral that has at least one digit. *)
Lemma parseInt_numeral (d : Decimal.uint) :
  d <> Decimal.Nil ->
  parseInt (DecimalString.NilEmpty.string_of_uint d) =
    nearest_double (uint_value d 0).
Proof.
  intros Hd.
  destruct d as [|d|d|d|d|d|d|d|d|d|d]; [contradiction|..].
  2-10: read_numeral.
  destruct d; read_numeral.
Qed.

Lemma to_uint_not_nil (n : N) : N.to_uint n <> Decimal.Nil.
Proof.
  destruct n as [|p]; [discriminate|]. apply DecimalPos.Unsigned.to_uint_nonnil.
Qed.

Lemma decimal_numeral (n : N) :
  decimal n = DecimalString.NilEmpty.string_of_uint (N.to_uint n).
Proof.
  unfold decimal, DecimalString.NilZero.string_of_uint.
  pose proof (to_uint_not_nil n) as H.
  destruct (N.to_uint n); [contradiction | reflexivity ..].
Qed.

Lemma numeral_value (n : N) : uint_value (N.to_uint n) 0 = Z.of_N n.
Proof.
  rewrite <- of_uint_value.
  change (Pos.of_uint (N.to_uint n)) with (N.of_uint (N.to_uint n)).
  now rewrite DecimalN.Unsigned.of_to.
Qed.

(** Below two to the fifty-third every whole number is a double. *)
Lemma nearest_double_exact (v : Z) :
  (Z.abs v < 2 ^ 53)%Z -> nearest_double v = num_of_Z v.
Proof.
  intros H. unfold nearest_double.
  apply Z.ltb_lt in H. now rewrite H.
Qed.

Lemma parseInt_decimal (n : N) :
  (n < 2 ^ 53)%N -> parseInt (decimal n) = whole n.
Proof.
  intros Hn.
  rewrite decimal_numeral, parseInt_numeral by apply to_uint_not_nil.
  rewrite numeral_value. unfold whole. apply nearest_double_exact.
  change (2 ^ 53)%Z with (Z.of_N (2 ^ 53)). lia.
Qed.

Lemma decimal_not_blank (n : N) : all_spaces (decimal n) = false.
Proof.
  rewrite decimal_numeral. pose proof (to_uint_not_nil n) as H.
  destruct (N.to_uint n); [contradiction|..];
    cbn [DecimalString.NilEmpty.string_of_uint];
    apply all_spaces_other; reflexivity.
Qed.

Lemma print_whole_prints_whole_numbers : prints_whole_numbers print_whole.
Proof.
  intros [a b] n _ H. unfold Qeq in H. cbn in H. unfold print_whole. cbn [Qnum Qden].
  assert (Ha : a = (Z.of_N n * Z.pos b)%Z) by lia.
  rewrite Ha, Z.mod_mul, Z.div_mul by lia.
  replace (0 <=? Z.of_N n * Z.pos b)%Z with true by (symmetry; apply Z.leb_le; lia).
  cbn. now rewrite N2Z.id.
Qed.

Lemma padStart_two_digits (r : N) :
  (r < 60)%N -> padStart 2 "0" (decimal r) = two_digits r.
Proof.
  intros Hr.
  assert (Hall : forallb (fun k => String.eqb (padStart 2 "0" (decimal k)) (two_digits k))
                   (map N.of_nat (seq 0 60)) = true) by (vm_compute; reflexivity).
  rewrite forallb_forall in Hall. apply String.eqb_eq, Hall.
  replace r with (N.of_nat (N.to_nat r)) by apply N2Nat.id.
  apply in_map, in_seq. lia.
Qed.

Lemma floor_sixtieth (s : N) :
  Qfloor (inject_Z (Z.of_N s) / (60 # 1)) = Z.of_N (s / 60).
Proof.
  unfold Qfloor, Qdiv, Qmult, Qinv, inject_Z. cbn [Qnum Qden Z.mul Pos.mul].
  rewrite N2Z.inj_div. f_equal. lia.
Qed.

(** X6. Printing a whole number and reading it back with [parseInt] gives
    the number. Hence, with a task whose estimate is a whole number and
    whose name is not blank, pressing edit and then the add button, without
    touching the fields, passes validation and requests an estimate for the
    same name and the same number of minutes, to overwrite that task. *)
Theorem edit_then_add_requests_same_minutes
  (Number_toString : number -> string) (task : Task) (st : State) (n : N) :
  prints_whole_numbers Number_toString ->
  (n < 2 ^ 53)%N ->
  estimatedTime task = whole n ->
  all_spaces (name task) = false ->
  parseInt (Number_toString (estimatedTime task)) = estimatedTime task /\
  handleAddTask (handleEditTask Number_toString task st) =
    (perform (EstimateRequested (name task) (whole n))
       (handleEditTask Number_toString task st),
     Some {| pending_taskName := name task;
             pending_estimatedMinutes := whole n;
             pending_tasks := tasks st;
             pending_editingTask := Some task |}).
Proof.
  intros Hprint Hn Hest Hname.
  assert (Htext : Number_toString (estimatedTime task) = decimal n).
  { rewrite Hest. apply Hprint; [exact Hn | reflexivity]. }
  split; [rewrite Htext, Hest; apply parseInt_decimal, Hn|].
  unfold handleAddTask, handleEditTask.
  cbn [taskName estimatedTimeInput tasks editingTask set_inputs setEditingTask].
  rewrite Htext, parseInt_decimal by exact Hn.
  assert (H1 : string_truthy (trim (name task)) = true).
  { unfold string_truthy. apply negb_true_iff, String.eqb_neq.
    rewrite trim_empty_all_spaces, Hname. discriminate. }
  assert (H2 : string_truthy (trim (decimal n)) = true).
  { unfold string_truthy. apply negb_true_iff, String.eqb_neq.
    rewrite trim_empty_all_spaces, decimal_not_blank. discriminate. }
  rewrite H1, H2. reflexivity.
Qed.

Lemma edit_then_add_requests_same_minutes_witness :
  snd (handleAddTask (handleEditTask print_whole review (listing [report; review]))) =
    Some {| pending_taskName := "Review";
            pending_estimatedMinutes := whole 10;
            pending_tasks := [report; review];
            pending_editingTask := Some review |}.
Proof.
  rewrite (proj2 (edit_then_add_requests_same_minutes print_whole review
                    (listing [report; review]) 10
                    print_whole_prints_whole_numbers eq_refl eq_refl eq_refl)).
  reflexivity.
Defined.

Lemma truncate_sixtieth (s : N) :
  Qtruncate (inject_Z (Z.of_N s) / (60 # 1)) = Z.of_N (s / 60).
Proof.
  unfold Qtruncate.
  replace (Qle_bool 0 (inject_Z (Z.of_N s) / (60 # 1))) with true.
  - apply floor_sixtieth.
  - symmetry. apply Qle_bool_iff.
    unfold Qle, Qdiv, Qmult, Qinv, inject_Z. cbn [Qnum Qden Z.mul Pos.mul]. lia.
Qed.

Lemma remainder_sixty (s : N) :
  inject_Z (Z.of_N s)
  - (60 # 1) * inject_Z (Qtruncate (inject_Z (Z.of_N s) / (60 # 1)))
  == inject_Z (Z.of_N (s mod 60)).
Proof.
  rewrite truncate_sixtieth.
  unfold Qeq, Qminus, Qplus, Qopp, Qmult, inject_Z. cbn [Qnum Qden Pos.mul].
  rewrite N2Z.inj_div, N2Z.inj_mod.
  pose proof (Z.div_mod (Z.of_N s) 60 ltac:(lia)) as H.
  change (Z.of_N 60) with 60%Z. lia.
Qed.

(** X7. With whole seconds [s] the countdown text is the numeral of
    [s / 60], a colon, and [s mod 60] written with exactly two digits; the
    banner shows it for the active task, [0:00] when the active task has
    no remaining time, and nothing when no task is active. *)
Theorem formatTime_whole_seconds
  (Number_toString : number -> string) (s : N) :
  prints_whole_numbers Number_toString ->
  (s < 2 ^ 53)%N ->
  formatTime Number_toString (whole s) =
    decimal (s / 60) ++ ":" ++ two_digits (s mod 60) /\
  (forall st active,
     activeTask st = Some active ->
     (remainingTime active = Some (whole s) ->
      banner Number_toString st =
        Some (decimal (s / 60) ++ ":" ++ two_digits (s mod 60))) /\
     (remainingTime active = None ->
      banner Number_toString st = Some "0:00")) /\
  (forall st, activeTask st = None -> banner Number_toString st = None).
Proof.
  intros Hprint Hs.
  assert (Hfmt : forall k : N,
            (k < 2 ^ 53)%N ->
            formatTime Number_toString (whole k) =
              decimal (k / 60) ++ ":" ++ two_digits (k mod 60)).
  { intros k Hk.
    assert (Hq : (k / 60 < 2 ^ 53)%N).
    { eapply N.le_lt_trans; [|exact Hk]. apply N.Div0.div_le_upper_bound. nia. }
    assert (Hm : (k mod 60 < 2 ^ 53)%N).
    { eapply N.lt_trans; [apply N.mod_lt; discriminate|]. reflexivity. }
    unfold formatTime, whole, num_of_Z, js_div_by, js_rem_by, Math_floor.
    rewrite floor_sixtieth. unfold num_of_Z.
    rewrite (Hprint (inject_Z (Z.of_N (k / 60))) (k / 60)%N Hq) by reflexivity.
    rewrite (Hprint
               (inject_Z (Z.of_N k)
                - (60 # 1) * inject_Z (Qtruncate (inject_Z (Z.of_N k) / (60 # 1))))
               (k mod 60)%N Hm) by apply remainder_sixty.
    rewrite padStart_two_digits; [reflexivity|].
    apply N.mod_lt. discriminate. }
  split; [apply Hfmt, Hs|]. split.
  - intros st active Ha. unfold banner. rewrite Ha. split.
    + intros Hr. rewrite Hr. f_equal. rewrite <- (Hfmt s Hs). f_equal.
      unfold or_number, whole, num_of_Z, number_truthy.
      destruct (Qeq_bool (inject_Z (Z.of_N s)) 0) eqn:E; [|reflexivity].
      apply Qeq_bool_eq in E. unfold Qeq, inject_Z in E. cbn in E.
      assert (s = 0%N) by lia. subst s. reflexivity.
    + intros Hr. rewrite Hr. cbn [or_number]. f_equal.
      change (Num 0) with (whole 0). rewrite Hfmt by reflexivity. reflexivity.
  - intros st Ha. unfold banner. now rewrite Ha.
Qed.

Lemma formatTime_whole_seconds_witness :
  formatTime print_whole (whole 290) = "4:50".
Proof.
  rewrite (proj1 (formatTime_whole_seconds print_whole 290
                    print_whole_prints_whole_numbers eq_refl)).
  reflexivity.
Defined.

(** ** Committing an estimate *)

Lemma pressAdd_inputs (p : Pending) (rt : number) (now : string) (ok : bool)
  (st : State) :
  editingTask (pressAdd p rt now ok st) = None /\
  taskName (pressAdd p rt now ok st) = "" /\
  estimatedTimeInput (pressAdd p rt now ok st) = "".
Proof. unfold pressAdd. cbn. auto. Qed.

Lemma pressAdd_storage (p : Pending) (rt : number) (now : string) (ok : bool)
  (st : State) :
  storage (pressAdd p rt now ok st) =
    if ok then Some (tasks (pressAdd p rt now ok st)) else storage st.
Proof.
  rewrite pressAdd_tasks. unfold pressAdd, saveTasks. destruct ok; reflexivity.
Qed.

Lemma handleDeleteTask_storage (taskId : string) (ok : bool) (st : State) :
  storage (handleDeleteTask taskId ok st) =
    if ok then Some (tasks (handleDeleteTask taskId ok st)) else storage st.
Proof.
  destruct (handleDeleteTask_frame taskId ok st) as [_ [_ [_ Hl]]]. rewrite Hl.
  unfold handleDeleteTask, saveTasks. destruct ok; reflexivity.
Qed.

(** X8. Accepting the estimate of an edit rewrites the list captured when
    the add button was pressed, row by row and in the same order: every row
    keeps its id and its timer fields, rows with another id are untouched,
    and rows with the edited id get the trimmed name, the parsed minutes
    and the estimate. The active task and the timer are not looked at, and
    the fields and the task being edited are cleared. *)
Theorem edit_commit_keeps_identity_and_timer
  (p : Pending) (rt : number) (now : string) (ok : bool) (st : State)
  (editing : Task) :
  pending_editingTask p = Some editing ->
  let st' := pressAdd p rt now ok st in
  Forall2
    (fun before after =>
       same_identity_and_timer before after /\
       (id before <> id editing -> after = before) /\
       (id before = id editing ->
        name after = trim (pending_taskName p) /\
        estimatedTime after = pending_estimatedMinutes p /\
        Controller.realTime after = rt))
    (pending_tasks p) (tasks st') /\
  map id (tasks st') = map id (pending_tasks p) /\
  activeTask st' = activeTask st /\
  timer st' = timer st /\
  intervals st' = intervals st /\
  editingTask st' = None /\
  taskName st' = "" /\
  estimatedTimeInput st' = "".
Proof.
  intros He st'. subst st'.
  destruct (pressAdd_frame p rt now ok st) as [Ha [Ht Hi]].
  destruct (pressAdd_inputs p rt now ok st) as [Hed [Hn Hm]].
  rewrite pressAdd_tasks, He.
  split; [|split; [|repeat split; assumption]].
  - induction (pending_tasks p) as [|t ts IH]; cbn [map]; constructor; [|exact IH].
    destruct (String.eqb (id t) (id editing)) eqn:E.
    + apply String.eqb_eq in E. split; [repeat split|]. split.
      * intros Hne. contradiction.
      * intros _. repeat split.
    + apply String.eqb_neq in E. split; [repeat split|]. split.
      * reflexivity.
      * intros Heq. contradiction.
  - rewrite map_map. apply map_ext. intros t.
    destruct (String.eqb (id t) (id editing)); reflexivity.
Qed.

Lemma edit_commit_keeps_identity_and_timer_witness :
  let running := with_timer report true false (Some (Num 120)) in
  let p := {| pending_taskName := " Write the report ";
              pending_estimatedMinutes := Num 8;
              pending_tasks := [running; review];
              pending_editingTask := Some running |} in
  map id (tasks (pressAdd p (Num 10) "1730509200000" true initial)) =
    [id report; id review] /\
  editingTask (pressAdd p (Num 10) "1730509200000" true initial) = None.
Proof.
  intros running p.
  destruct (edit_commit_keeps_identity_and_timer p (Num 10) "1730509200000" true
              initial running eq_refl)
    as [_ [Hids [_ [_ [_ [Hed _]]]]]].
  split; [exact Hids | exact Hed].
Defined.

(** X9. The add button of the dialog writes the list captured when the
    request started. A task deleted while the dialog was open is gone from
    the list and, when that write succeeded, from storage; after the accept
    a row with its id is in the list again, and in storage again when this
    write succeeds. *)
Theorem accepting_estimate_restores_deleted_task
  (st st1 : State) (p : Pending) (t : Task) (rt : number) (now : string)
  (ok1 ok2 : bool) :
  handleAddTask st = (st1, Some p) ->
  In t (tasks st) ->
  let st2 := handleDeleteTask (id t) ok1 st1 in
  let st3 := pressAdd p rt now ok2 st2 in
  entry (id t) st2 = None /\
  (ok1 = true -> storage st2 = Some (tasks st2)) /\
  (exists t', In t' (tasks st3) /\ same_identity_and_timer t t') /\
  (ok2 = true -> storage st3 = Some (tasks st3)).
Proof.
  intros Hadd Hin st2 st3. subst st2 st3.
  unfold handleAddTask in Hadd.
  destruct (negb (string_truthy (trim (taskName st)))
            || negb (string_truthy (trim (estimatedTimeInput st))));
    [discriminate|].
  injection Hadd as <- <-.
  split; [|split; [|split]].
  - destruct (handleDeleteTask_frame (id t) ok1
                (perform (EstimateRequested (taskName st)
                            (parseInt (estimatedTimeInput st))) st))
      as [_ [_ [_ Hl]]].
    unfold entry. rewrite Hl. apply entry_filtered.
  - intros ->. apply (handleDeleteTask_storage (id t) true).
  - rewrite pressAdd_tasks.
    cbn [pending_editingTask pending_tasks pending_taskName pending_estimatedMinutes].
    destruct (editingTask st) as [editing|].
    + exists (if String.eqb (id t) (id editing)
              then with_estimate t (trim (taskName st))
                     (parseInt (estimatedTimeInput st)) rt
              else t).
      split.
      * apply in_map_iff. exists t. split; [reflexivity | exact Hin].
      * destruct (String.eqb (id t) (id editing)); repeat split.
    + exists t. split; [apply in_or_app; left; exact Hin | repeat split].
  - intros ->. rewrite pressAdd_storage. reflexivity.
Qed.

Lemma accepting_estimate_restores_deleted_task_witness :
  let st := set_inputs "Plan" "15" (listing [report; review]) in
  let st2 := handleDeleteTask (id review) true (fst (handleAddTask st)) in
  entry (id review) st2 = None /\
  exists t',
    In t' (tasks (pressAdd {| pending_taskName := "Plan";
                              pending_estimatedMinutes := Num 15;
                              pending_tasks := [report; review];
                              pending_editingTask := None |}
                    (Num 18) "1730509200000" true st2)) /\
    same_identity_and_timer review t'.
Proof.
  intros st st2.
  destruct (accepting_estimate_restores_deleted_task st (fst (handleAddTask st))
              {| pending_taskName := "Plan";
                 pending_estimatedMinutes := Num 15;
                 pending_tasks := [report; review];
                 pending_editingTask := None |}
              review (Num 18) "1730509200000" true true eq_refl
              (or_intror (or_introl eq_refl)))
    as [Hgone [_ [Hback _]]].
  split; [exact Hgone | exact Hback].
Defined.

(** ** The list a countdown holds *)

Lemma replace_task_keeps_others (by_ : Task) (ts : list Task) (t : Task) :
  In t ts -> id t <> id by_ -> In t (replace_task by_ ts).
Proof.
  unfold replace_task. intros Hin Hid. apply in_map_iff. exists t. split.
  - apply String.eqb_neq in Hid. now rewrite Hid.
  - exact Hin.
Qed.

Lemma startTimer_accepted (task : Task) (st : State) :
  (forall a, activeTask st = Some a -> id a = id task) ->
  let updatedTask :=
    with_timer task true false
      (Some (or_number (remainingTime task)
               (js_mul (Controller.realTime task) (Num 60)))) in
  activeTask (startTimer task st) = Some updatedTask /\
  tasks (startTimer task st) = replace_task updatedTask (tasks st) /\
  timer (startTimer task st) = Some (next_handle st) /\
  intervals (startTimer task st) =
    (intervals st ++
     [{| handle := next_handle st; captured_tasks := tasks st |}])%list /\
  storage (startTimer task st) = storage st /\
  effects (startTimer task st) = effects st.
Proof.
  intros Hsame updatedTask. subst updatedTask. unfold startTimer.
  assert (Hguard :
    match activeTask st with
    | Some active => negb (String.eqb (id active) (id task))
    | None => false
    end = false).
  { destruct (activeTask st) as [a|]; [|reflexivity].
    rewrite (Hsame a eq_refl), String.eqb_refl. reflexivity. }
  rewrite Hguard. repeat split; reflexivity.
Qed.

(** X10. The callback of a countdown writes back the list of the render
    that started it. A task deleted while the countdown runs is gone from
    the list and, the write succeeding, from storage; the next tick that
    does not complete the countdown puts it back in the list, and storage
    is not written, so it still lacks the task. *)
Theorem running_countdown_restores_deleted_task
  (st : State) (task t : Task) (ok : bool) :
  (forall a, activeTask st = Some a -> id a = id task) ->
  In t (tasks st) ->
  id t <> id task ->
  let started :=
    or_number (remainingTime task) (js_mul (Controller.realTime task) (Num 60)) in
  js_le0 (js_sub (or_number (Some started) (Num 0)) (Num 1)) = false ->
  let st1 := startTimer task st in
  let st2 := handleDeleteTask (id t) ok st1 in
  let st3 := tick (next_handle st) (tasks st) st2 in
  In {| handle := next_handle st; captured_tasks := tasks st |} (intervals st2) /\
  entry (id t) st2 = None /\
  (ok = true -> storage st2 = Some (tasks st2)) /\
  In t (tasks st3) /\
  storage st3 = storage st2.
Proof.
  intros Hsame Hin Hid started Hrun st1 st2 st3.
  destruct (startTimer_accepted task st Hsame) as [Ha [_ [_ [Hi _]]]].
  fold started in Ha. fold st1 in Ha, Hi.
  destruct (handleDeleteTask_frame (id t) ok st1) as [Ha2 [_ [Hi2 Hl2]]].
  fold st2 in Ha2, Hi2, Hl2.
  split; [|split; [|split; [|split]]].
  - rewrite Hi2, Hi. apply in_or_app. right. left. reflexivity.
  - unfold entry. rewrite Hl2. apply entry_filtered.
  - intros ->. apply (handleDeleteTask_storage (id t) true).
  - subst st3. unfold tick. rewrite Ha2, Ha.
    cbn [isPaused with_timer flag remainingTime]. rewrite Hrun. cbn [tasks setActiveTask setTasks].
    apply replace_task_keeps_others; [exact Hin | exact Hid].
  - apply (tick_storage (next_handle st) (tasks st) st2).
Qed.

Lemma running_countdown_restores_deleted_task_witness :
  let st1 := startTimer report (listing [report; review]) in
  let st2 := handleDeleteTask (id review) true st1 in
  entry (id review) st2 = None /\
  In review (tasks (tick 1 [report; review] st2)) /\
  storage (tick 1 [report; review] st2) = Some [with_timer report true false (Some (Num 300))].
Proof.
  intros st1 st2.
  destruct (running_countdown_restores_deleted_task (listing [report; review])
              report review true
              ltac:(intros a H; discriminate H)
              (or_intror (or_introl eq_refl))
              ltac:(discriminate) eq_refl)
    as [_ [Hgone [_ [Hback Hsto]]]].
  split; [exact Hgone|]. split; [exact Hback|].
  exact (eq_trans Hsto eq_refl).
Defined.

(** ** What reaches storage *)

Lemma stop_tick_quiet (st : State) :
  storage (stop_tick st) = storage st /\ effects (stop_tick st) = effects st /\
  tasks (stop_tick st) = tasks st /\ activeTask (stop_tick st) = activeTask st.
Proof. unfold stop_tick. destruct (timer st); repeat split. Qed.

Lemma timer_handlers_quiet (task : Task) (st : State) :
  (storage (startTimer task st) = storage st /\
   existsb is_write (effects (startTimer task st)) = existsb is_write (effects st)) /\
  (storage (pauseTimer st) = storage st /\ effects (pauseTimer st) = effects st) /\
  (storage (resetTimer st) = storage st /\ effects (resetTimer st) = effects st).
Proof.
  destruct (stop_tick_quiet st) as [Hs [He _]].
  split; [|split].
  - unfold startTimer.
    destruct (match activeTask st with
              | Some active => negb (String.eqb (id active) (id task))
              | None => false
              end); cbn.
    + split; [reflexivity|]. rewrite existsb_app_single. cbn. apply orb_false_r.
    + split; reflexivity.
  - unfold pauseTimer. destruct (activeTask st); cbn; auto.
  - unfold resetTimer. destruct (activeTask st); cbn; auto.
Qed.

(** X11. Only the add button of the dialog and the delete button write to
    storage: every other event (typing, loading, requesting an estimate,
    showing it, edit, cancel, the timer buttons, a tick) leaves the stored
    list as it is and issues no write. Whatever the event, the stored list
    afterwards is the one before or the list now in memory. A write that
    fails leaves the stored list as it was while the list in memory has
    already changed, and ends with the alert. *)
Theorem storage_is_written_only_by_commit_and_delete
  (Number_toString : number -> string) (st : State) (ev : event) :
  let st' := step Number_toString st ev in
  (writes_storage ev = false ->
   storage st' = storage st /\
   existsb is_write (effects st') = existsb is_write (effects st)) /\
  (storage st' = storage st \/ storage st' = Some (tasks st')) /\
  (forall taskId, ev = DeletePressed taskId false ->
     storage st' = storage st /\
     tasks st' = filter (fun task => negb (String.eqb (id task) taskId)) (tasks st) /\
     effects st' =
       (effects st ++ [StorageSetItem STORAGE_KEY (tasks st');
                       Alert "エラー" "タスクの保存に失敗しました"])%list) /\
  (forall p rt now, ev = DialogAdd p rt now false ->
     storage st' = storage st /\
     effects st' =
       (effects st ++ [StorageSetItem STORAGE_KEY (tasks st');
                       Alert "エラー" "タスクの保存に失敗しました"])%list).
Proof.
  intros st'. subst st'. split; [|split; [|split]].
  - destruct ev; cbn [writes_storage step]; try discriminate; intros _;
      try (split; reflexivity).
    + unfold loadTasks. destruct read as [[saved|]|e]; cbn; try (split; reflexivity).
      split; [reflexivity|]. rewrite existsb_app_single. cbn. apply orb_false_r.
    + unfold handleAddTask. destruct (_ || _); cbn;
        (split; [reflexivity|]); rewrite existsb_app_single; cbn; apply orb_false_r.
    + unfold showEstimate. cbn. split; [reflexivity|].
      rewrite existsb_app_single. cbn. apply orb_false_r.
    + apply timer_handlers_quiet.
    + destruct (timer_handlers_quiet report st) as [_ [[Hs He] _]].
      rewrite Hs, He. split; reflexivity.
    + destruct (timer_handlers_quiet report st) as [_ [_ [Hs He]]].
      rewrite Hs, He. split; reflexivity.
    + apply tick_storage.
  - destruct ev; cbn [step]; try (left; reflexivity).
    + left. unfold loadTasks. destruct read as [[saved|]|e]; reflexivity.
    + left. unfold handleAddTask. destruct (_ || _); reflexivity.
    + rewrite pressAdd_storage. destruct write_ok; [right | left]; reflexivity.
    + rewrite handleDeleteTask_storage. destruct write_ok; [right | left]; reflexivity.
    + left. apply timer_handlers_quiet.
    + left. apply timer_handlers_quiet. exact report.
    + left. apply timer_handlers_quiet. exact report.
    + left. apply tick_storage.
  - intros taskId ->. cbn [step].
    destruct (handleDeleteTask_frame taskId false st) as [_ [_ [_ Hl]]].
    rewrite Hl. split; [apply (handleDeleteTask_storage taskId false)|].
    split; [reflexivity|].
    unfold handleDeleteTask, saveTasks. cbn. rewrite <- app_assoc. reflexivity.
  - intros p rt now ->. cbn [step].
    split; [apply (pressAdd_storage p rt now false)|].
    rewrite pressAdd_tasks. unfold pressAdd, saveTasks. cbn.
    rewrite <- app_assoc. reflexivity.
Qed.

(** ** Rows that read running *)

Lemma stuck_buttons (row : Task) :
  flag (isRunning row) = true -> flag (isPaused row) = false ->
  timerButtons row = [PauseButton; ResetButton].
Proof. intros Hr Hp. unfold timerButtons. rewrite Hr, Hp. reflexivity. Qed.

(** X12. In a state the screen can reach in which no task is active, a row
    that reads running and not paused offers the pause and the reset
    button only, and neither changes anything: such a row (one whose
    countdown completed, or one loaded from a list saved while it ran)
    cannot be started from its own buttons. *)
Theorem running_row_without_active_task_is_stuck
  (Number_toString : number -> string) (st : State) (row : Task) :
  reachable Number_toString st ->
  activeTask st = None ->
  flag (isRunning row) = true ->
  flag (isPaused row) = false ->
  timerButtons row = [PauseButton; ResetButton] /\
  forall b, In b (timerButtons row) -> press b row st = st.
Proof.
  intros Hreach Hnone Hr Hp.
  pose proof (reachable_no_orphan _ _ Hreach Hnone) as Ht.
  rewrite (stuck_buttons row Hr Hp). split; [reflexivity|].
  intros b [<- | [<- | []]]; cbn [press].
  - unfold pauseTimer. rewrite Hnone. apply stop_tick_idle, Ht.
  - unfold resetTimer. rewrite Hnone. apply stop_tick_idle, Ht.
Qed.

Lemma running_row_without_active_task_is_stuck_witness :
  let row := with_timer report true false (Some (Num 120)) in
  let st := step print_whole initial (Loaded (Return (Some [row; review]))) in
  timerButtons row = [PauseButton; ResetButton] /\
  forall b, In b (timerButtons row) -> press b row st = st.
Proof.
  intros row st.
  apply (running_row_without_active_task_is_stuck print_whole st row).
  - apply (reachable_step print_whole initial
             (Loaded (Return (Some [row; review])))).
    + apply reachable_initial.
    + exact I.
  - reflexivity.
  - reflexivity.
  - reflexivity.
Defined.

(** ** The handle and the live intervals *)

Lemma is_live_appended (h : N) (captured : list Task) (ivs : list Interval) :
  existsb (fun j => N.eqb (handle j) h)
    (ivs ++ [{| handle := h; captured_tasks := captured |}]) = true.
Proof.
  rewrite existsb_app. cbn. rewrite N.eqb_refl. apply orb_true_iff. right. reflexivity.
Qed.

Lemma step_held_live (toS : number -> string) (st : State) (ev : event) :
  (forall h, timer st = Some h -> is_live h st = true) ->
  forall h, timer (step toS st ev) = Some h -> is_live h (step toS st ev) = true.
Proof.
  intros H. destruct ev; cbn [step]; try exact H.
  - unfold loadTasks. destruct read as [[saved|]|e]; exact H.
  - unfold handleAddTask. destruct (_ || _); exact H.
  - destruct (pressAdd_frame p result_realTime now write_ok st) as [_ [Ht Hi]].
    unfold is_live. rewrite Ht, Hi. exact H.
  - destruct (handleDeleteTask_frame taskId write_ok st) as [_ [Ht [Hi _]]].
    unfold is_live. rewrite Ht, Hi. exact H.
  - unfold startTimer.
    destruct (match activeTask st with
              | Some active => negb (String.eqb (id active) (id task))
              | None => false
              end); [exact H|].
    cbn. intros h Hh. injection Hh as <-. unfold is_live. cbn.
    apply is_live_appended.
  - intros h Hh. rewrite pauseTimer_timer in Hh. discriminate.
  - intros h Hh. rewrite resetTimer_timer in Hh. discriminate.
  - unfold tick. destruct (activeTask st) as [current|]; [|exact H].
    destruct (flag (isPaused current)); [exact H|].
    destruct (js_le0 _); cbn; [discriminate | exact H].
Qed.

(** X13. In every state the screen can reach, the handle kept in the timer
    state variable names an interval that is still live, and a handle is
    kept only while some task is active. *)
Theorem held_handle_is_live
  (Number_toString : number -> string) (st : State) :
  reachable Number_toString st ->
  (forall h, timer st = Some h -> is_live h st = true) /\
  (forall h, timer st = Some h -> exists active, activeTask st = Some active).
Proof.
  intros Hreach. split.
  - induction Hreach as [|st ev _ IH _].
    + discriminate.
    + apply step_held_live, IH.
  - intros h Hh. pose proof (reachable_no_orphan _ _ Hreach) as Hno.
    destruct (activeTask st) as [a|] eqn:Ha; [eauto|].
    rewrite (Hno Ha) in Hh. discriminate.
Qed.

Lemma held_handle_is_live_witness :
  let st := step print_whole
              (step print_whole initial (Loaded (Return (Some [report; review]))))
              (StartPressed report) in
  is_live 1 st = true /\ exists active, activeTask st = Some active.
Proof.
  intros st.
  assert (Hr : reachable print_whole st).
  { apply (reachable_step print_whole _ (StartPressed report)); [|exact I].
    apply (reachable_step print_whole _ (Loaded (Return (Some [report; review]))));
      [apply reachable_initial | exact I]. }
  destruct (held_handle_is_live print_whole st Hr) as [Hlive Hact].
  split; [exact (Hlive 1%N eq_refl) | exact (Hact 1%N eq_refl)].
Defined.

Lemma clear_only_interval (h : N) (ivs : list Interval) :
  map handle ivs = [h] ->
  filter (fun i => negb (N.eqb (handle i) h)) ivs = [].
Proof.
  destruct ivs as [|i [|j rest]]; cbn; try discriminate.
  intros H. injection H as ->. now rewrite N.eqb_refl.
Qed.

Lemma step_one_interval (toS : number -> string) (st : State) (ev : event) :
  live_handles st = held st ->
  enabled st ev ->
  start_without_handle st ev ->
  live_handles (step toS st ev) = held (step toS st ev).
Proof.
  unfold live_handles, held. intros H Hen Hstart.
  destruct ev; cbn [step]; try exact H.
  - unfold loadTasks. destruct read as [[saved|]|e]; exact H.
  - unfold handleAddTask. destruct (_ || _); exact H.
  - destruct (pressAdd_frame p result_realTime now write_ok st) as [_ [Ht Hi]].
    rewrite Ht, Hi. exact H.
  - destruct (handleDeleteTask_frame taskId write_ok st) as [_ [Ht [Hi _]]].
    rewrite Ht, Hi. exact H.
  - unfold startTimer.
    destruct (match activeTask st with
              | Some active => negb (String.eqb (id active) (id task))
              | None => false
              end) eqn:Hguard; [exact H|].
    cbn in Hstart. destruct Hstart as [Hnone | [a [Ha Hne]]].
    + rewrite Hnone in H. cbn. rewrite map_app, H. reflexivity.
    + rewrite Ha in Hguard. apply negb_false_iff, String.eqb_eq in Hguard.
      contradiction.
  - unfold pauseTimer, stop_tick.
    destruct (timer st) as [h|] eqn:Ht.
    + destruct (activeTask st); cbn; rewrite (clear_only_interval h _ H); reflexivity.
    + destruct (activeTask st); cbn; rewrite Ht; exact H.
  - unfold resetTimer, stop_tick.
    destruct (timer st) as [h|] eqn:Ht.
    + destruct (activeTask st); cbn; rewrite (clear_only_interval h _ H); reflexivity.
    + destruct (activeTask st); cbn; rewrite Ht; exact H.
  - cbn in Hen. unfold tick.
    destruct (activeTask st) as [current|]; [|exact H].
    destruct (flag (isPaused current)); [exact H|].
    destruct (js_le0 _); cbn; [|exact H].
    destruct (timer st) as [h|].
    + assert (Hi : handle i = h).
      { apply (in_map handle) in Hen. rewrite H in Hen.
        destruct Hen as [<- | []]. reflexivity. }
      rewrite Hi, (clear_only_interval h _ H). reflexivity.
    + destruct (intervals st); [destruct Hen | discriminate].
Qed.

(** X14. As long as [startTimer] is only called while no handle is held
    (or for a task other than the active one, which is refused), the live
    intervals are exactly the held handle: at most one interval fires, and
    pausing, resetting or completing leaves none. *)
Theorem one_interval_without_restart
  (Number_toString : number -> string) (st : State) :
  reachable_without_restart Number_toString st ->
  live_handles st = held st /\
  (List.length (intervals st) <= 1)%nat /\
  (timer st = None -> intervals st = []).
Proof.
  intros Hreach.
  assert (H : live_handles st = held st).
  { induction Hreach as [|st ev _ IH Hen Hstart]; [reflexivity|].
    apply step_one_interval; assumption. }
  split; [exact H|]. unfold live_handles, held in H. split.
  - rewrite <- (length_map handle), H. destruct (timer st); cbn; lia.
  - intros Ht. rewrite Ht in H. destruct (intervals st); [reflexivity | discriminate].
Qed.

Lemma one_interval_without_restart_witness :
  let st :=
    step print_whole
      (step print_whole
         (step print_whole
            (step print_whole initial (Loaded (Return (Some [report; review]))))
            (StartPressed report))
         PausePressed)
      (StartPressed (with_timer report true true (Some (Num 300)))) in
  live_handles st = [2%N] /\ held st = [2%N].
Proof.
  intros st.
  assert (Hr : reachable_without_restart print_whole st).
  { apply (without_restart_step print_whole _
             (StartPressed (with_timer report true true (Some (Num 300)))));
      [|exact I | left; reflexivity].
    apply (without_restart_step print_whole _ PausePressed); [|exact I | exact I].
    apply (without_restart_step print_whole _ (StartPressed report));
      [|exact I | left; reflexivity].
    apply (without_restart_step print_whole _
             (Loaded (Return (Some [report; review]))));
      [apply without_restart_initial | exact I | exact I]. }
  destruct (one_interval_without_restart print_whole st Hr) as [Heq _].
  split; [rewrite Heq|]; reflexivity.
Defined.

(** ** Counting down whole seconds *)







(** ** Pausing, resetting and starting again from the row *)

Lemma find_replaced (by_ : Task) (ts : list Task) (row : Task) :
  In row ts -> id row = id by_ ->
  find (fun t => String.eqb (id t) (id by_)) (replace_task by_ ts) = Some by_.
Proof.
  intros Hin Hid. induction ts as [|t ts IH]; [destruct Hin|].
  cbn [replace_task map find]. fold (replace_task by_ ts).
  destruct (String.eqb (id t) (id by_)) eqn:E.
  - now rewrite String.eqb_refl.
  - rewrite E. apply IH. destruct Hin as [-> | Hin]; [|exact Hin].
    rewrite Hid, String.eqb_refl in E. discriminate.
Qed.

Lemma pauseTimer_active (st : State) (a : Task) :
  activeTask st = Some a ->
  activeTask (pauseTimer st) = Some (with_timer a true true (remainingTime a)) /\
  tasks (pauseTimer st) =
    replace_task (with_timer a true true (remainingTime a)) (tasks st).
Proof.
  intros Ha. unfold pauseTimer. rewrite Ha. cbn.
  destruct (stop_tick_quiet st) as [_ [_ _]]. split; reflexivity.
Qed.


(** X16. With the active task shown by a row of the list: after a pause,
    that row offers resume and reset, and pressing resume continues from
    the remaining time the active task had, as long as that is not 0 or
    NaN, with a new interval whose handle is held. *)
Theorem pause_then_resume_keeps_remaining
  (st : State) (a row : Task) (r : number) :
  activeTask st = Some a ->
  In row (tasks st) ->
  id row = id a ->
  remainingTime a = Some r ->
  number_truthy r = true ->
  let paused := pauseTimer st in
  let resumed := pressStart (id a) paused in
  entry (id a) paused = Some (with_timer a true true (Some r)) /\
  timerButtons (with_timer a true true (Some r)) = [ResumeButton; ResetButton] /\
  timer paused = None /\
  activeTask resumed = Some (with_timer a true false (Some r)) /\
  timer resumed = Some (next_handle paused) /\
  is_live (next_handle paused) resumed = true.
Proof.
  intros Ha Hin Hid Hr Ht paused resumed.
  destruct (pauseTimer_active st a Ha) as [Hpa Hpt]. rewrite Hr in Hpa, Hpt.
  fold paused in Hpa, Hpt.
  assert (Hentry : entry (id a) paused = Some (with_timer a true true (Some r))).
  { unfold entry. rewrite Hpt.
    apply (find_replaced (with_timer a true true (Some r)) (tasks st) row Hin Hid). }
  split; [exact Hentry|]. split; [reflexivity|].
  split; [apply pauseTimer_timer|].
  subst resumed. unfold pressStart. rewrite Hentry.
  destruct (startTimer_accepted (with_timer a true true (Some r)) paused)
    as [Hact [_ [Htm [Hiv _]]]].
  { intros a' Ha'. rewrite Hpa in Ha'. injection Ha' as <-. reflexivity. }
  cbn [remainingTime with_timer or_number] in Hact. rewrite Ht in Hact.
  split; [exact Hact|]. split; [exact Htm|].
  unfold is_live. rewrite Hiv. apply is_live_appended.
Qed.

Lemma pause_then_resume_keeps_remaining_witness :
  let st := startTimer (with_timer report true true (Some (Num 290)))
              (listing [with_timer report true true (Some (Num 290)); review]) in
  activeTask (pressStart (id report) (pauseTimer st)) =
    Some (with_timer report true false (Some (Num 290))).
Proof.
  intros st.
  destruct (pause_then_resume_keeps_remaining st
              (with_timer report true false (Some (Num 290)))
              (with_timer report true false (Some (Num 290)))
              (Num 290) eq_refl (or_introl eq_refl) eq_refl eq_refl eq_refl)
    as [_ [_ [_ [Hact _]]]].
  exact Hact.
Defined.



(** ** The rows under the timer buttons *)

Lemma Forall2_unchanged (touched : string -> Prop) (ts : list Task) :
  Forall2 (fun before after =>
             id after = id before /\ (after = before \/ touched (id before)))
    ts ts.
Proof. induction ts; constructor; auto. Qed.

Lemma Forall2_replaced (touched : string -> Prop) (by_ : Task) (ts : list Task) :
  touched (id by_) ->
  Forall2 (fun before after =>
             id after = id before /\ (after = before \/ touched (id before)))
    ts (replace_task by_ ts).
Proof.
  intros Ht. induction ts as [|t ts IH]; cbn; constructor; [|exact IH].
  destruct (String.eqb (id t) (id by_)) eqn:E.
  - apply String.eqb_eq in E. rewrite E. auto.
  - auto.
Qed.

Lemma Forall2_same_ids (touched : string -> Prop) (ts ts' : list Task) :
  Forall2 (fun before after =>
             id after = id before /\ (after = before \/ touched (id before)))
    ts ts' ->
  map id ts' = map id ts.
Proof.
  induction 1 as [|b a l l' [Hid _] _ IH]; cbn; [reflexivity|].
  now rewrite Hid, IH.
Qed.

(** X18. No timer button adds, removes or reorders rows: after any of
    them the list has the same ids in the same order, and a row is changed
    only if it has the id of the row pressed or of the active task. *)
Theorem timer_buttons_keep_the_rows (b : button) (row : Task) (st : State) :
  let touched := fun i : string =>
    i = id row \/ exists a, activeTask st = Some a /\ i = id a in
  Forall2 (fun before after =>
             id after = id before /\ (after = before \/ touched (id before)))
    (tasks st) (tasks (press b row st)) /\
  map id (tasks (press b row st)) = map id (tasks st).
Proof.
  intros touched.
  assert (H : Forall2 (fun before after =>
                id after = id before /\ (after = before \/ touched (id before)))
                (tasks st) (tasks (press b row st))).
  { assert (Hstart : Forall2 (fun before after =>
                id after = id before /\ (after = before \/ touched (id before)))
                (tasks st) (tasks (startTimer row st))).
    { unfold startTimer.
      destruct (match activeTask st with
                | Some active => negb (String.eqb (id active) (id row))
                | None => false
                end); cbn.
      - apply Forall2_unchanged.
      - apply Forall2_replaced. left. reflexivity. }
    destruct b; cbn [press]; try exact Hstart.
    - unfold pauseTimer. destruct (activeTask st) as [a|] eqn:Ha; cbn.
      + apply Forall2_replaced. right. exists a. auto.
      + destruct (stop_tick_quiet st) as [_ [_ [Hl _]]]. rewrite Hl.
        apply Forall2_unchanged.
    - unfold resetTimer. destruct (activeTask st) as [a|] eqn:Ha; cbn.
      + apply Forall2_replaced. right. exists a. auto.
      + destruct (stop_tick_quiet st) as [_ [_ [Hl _]]]. rewrite Hl.
        apply Forall2_unchanged. }
  split; [exact H | exact (Forall2_same_ids touched _ _ H)].
Qed.

(** ** What [parseInt] accepts *)

Lemma leading_digits_stop (junk : string) (acc : option Z) :
  stops_reading junk = true -> leading_digits 10 junk acc = acc.
Proof.
  destruct junk as [|c rest]; [reflexivity|]. cbn [stops_reading leading_digits].
  destruct (digit_value 10 c); [discriminate | reflexivity].
Qed.

Lemma leading_digits_numeral_then (d : Decimal.uint) (junk : string) (acc : Z) :
  stops_reading junk = true ->
  leading_digits 10 (DecimalString.NilEmpty.string_of_uint d ++ junk) (Some acc) =
    Some (uint_value d acc).
Proof.
  intros Hj. revert acc. induction d; intros acc;
    cbn [DecimalString.NilEmpty.string_of_uint append leading_digits uint_value];
    [apply leading_digits_stop, Hj|..];
    match goal with
    | |- context [digit_value 10 ?c] =>
        let v := eval vm_compute in (digit_value 10 c) in
        change (digit_value 10 c) with v
    end;
    cbv iota beta; apply IHd.
Qed.

Ltac read_numeral_then Hj :=
  unfold parseInt;
  cbn [DecimalString.NilEmpty.string_of_uint append];
  rewrite trimStart_other by reflexivity;
  cbv beta iota zeta;
  cbn [leading_digits]; eval_char_tests; cbv beta iota;
  rewrite ?(leading_digits_numeral_then _ _ _ Hj); reflexivity.

Lemma parseInt_numeral_then (d : Decimal.uint) (junk : string) :
  d <> Decimal.Nil ->
  stops_reading junk = true ->
  parseInt (DecimalString.NilEmpty.string_of_uint d ++ junk) =
    nearest_double (uint_value d 0).
Proof.
  intros Hd Hj.
  destruct d as [|d|d|d|d|d|d|d|d|d|d]; [contradiction|..].
  2-10: read_numeral_then Hj.
  destruct d; try read_numeral_then Hj.
  destruct junk as [|c rest]; [reflexivity|].
  destruct c as [b0 b1 b2 b3 b4 b5 b6 b7].
  destruct b0, b1, b2, b3, b4, b5, b6, b7;
    try (vm_compute in Hj; discriminate Hj); reflexivity.
Qed.

Lemma all_spaces_app_numeral (n : N) (junk : string) :
  all_spaces (decimal n ++ junk) = false.
Proof.
  rewrite decimal_numeral. pose proof (to_uint_not_nil n) as H.
  destruct (N.to_uint n); [contradiction|..];
    cbn [DecimalString.NilEmpty.string_of_uint append];
    apply all_spaces_other; reflexivity.
Qed.

Lemma parseInt_no_digit (s : string) (c : ascii) (rest : string) :
  trimStart s = String c rest ->
  c <> "-"%char -> c <> "+"%char ->
  digit_value 10 c = None ->
  parseInt s = NaN.
Proof.
  intros Hs Hm Hp Hd. unfold parseInt. rewrite Hs.
  destruct c as [b0 b1 b2 b3 b4 b5 b6 b7].
  destruct b0, b1, b2, b3, b4, b5, b6, b7;
    try (vm_compute in Hd; discriminate Hd);
    try (exfalso; apply Hm; reflexivity);
    try (exfalso; apply Hp; reflexivity);
    reflexivity.
Qed.

Lemma trimStart_blank_front (front s : string) :
  blank front -> trimStart (front ++ s) = trimStart s.
Proof.
  intros H. induction H as [|w b Hin Hb IH]; [reflexivity|].
  now rewrite append_assoc, trimStart_white_space.
Qed.

(** X19. [parseInt] skips leading white space (the no-break and the
    ideographic space included) and reads decimal digits up to the first
    character that is not one: a numeral (of a whole number that a double
    holds exactly) followed by other text reads as the numeral, also after
    white space, and text whose first character after the white space is
    neither a sign nor a digit, or that is all white space, reads as NaN.
    The add button therefore accepts minutes such as [90 min] and requests
    an estimate for 90. *)
Theorem parseInt_reads_leading_digits (n : N) (junk : string) :
  (n < 2 ^ 53)%N ->
  stops_reading junk = true ->
  parseInt (decimal n ++ junk) = whole n /\
  (forall front, blank front -> parseInt (front ++ decimal n ++ junk) = whole n) /\
  (forall st,
     ~ blank (taskName st) ->
     estimatedTimeInput st = decimal n ++ junk ->
     handleAddTask st =
       (perform (EstimateRequested (taskName st) (whole n)) st,
        Some {| pending_taskName := taskName st;
                pending_estimatedMinutes := whole n;
                pending_tasks := tasks st;
                pending_editingTask := editingTask st |})) /\
  (forall s, parseInt (trimStart s) = parseInt s) /\
  (forall s, blank s -> parseInt s = NaN) /\
  (forall s c rest,
     trimStart s = String c rest ->
     c <> "-"%char -> c <> "+"%char -> digit_value 10 c = None ->
     parseInt s = NaN).
Proof.
  intros Hn Hj.
  assert (Hread : parseInt (decimal n ++ junk) = whole n).
  { rewrite decimal_numeral, parseInt_numeral_then
      by (try apply to_uint_not_nil; exact Hj).
    rewrite numeral_value. unfold whole. apply nearest_double_exact.
    change (2 ^ 53)%Z with (Z.of_N (2 ^ 53)). lia. }
  assert (Htrim : forall s, parseInt (trimStart s) = parseInt s).
  { intros s. unfold parseInt.
    now rewrite (trimStart_fixed (trimStart s)) by apply trimStart_starts. }
  split; [exact Hread|]. split; [|split; [|split; [exact Htrim|split]]].
  - intros front Hfront. rewrite <- Htrim, trimStart_blank_front by exact Hfront.
    rewrite Htrim. exact Hread.
  - intros st Hname Htext. unfold handleAddTask.
    assert (H1 : string_truthy (trim (taskName st)) = true).
    { unfold string_truthy. apply negb_true_iff, String.eqb_neq.
      rewrite trim_empty. exact Hname. }
    assert (H2 : string_truthy (trim (estimatedTimeInput st)) = true).
    { unfold string_truthy. apply negb_true_iff, String.eqb_neq.
      rewrite trim_empty_all_spaces, Htext, all_spaces_app_numeral.
      discriminate. }
    rewrite H1, H2. cbn [negb orb]. rewrite Htext, Hread. reflexivity.
  - intros s Hs. unfold parseInt. rewrite (blank_trimStart s Hs). reflexivity.
  - intros s c rest. apply parseInt_no_digit.
Qed.

Lemma parseInt_reads_leading_digits_witness :
  parseInt "90 min" = whole 90 /\
  parseInt (ideographic_space ++ "60") = whole 60 /\
  parseInt (no_break_space ++ " 15 minutes") = whole 15.
Proof.
  split; [|split].
  - exact (proj1 (parseInt_reads_leading_digits 90 " min" eq_refl eq_refl)).
  - refine (proj1 (proj2 (parseInt_reads_leading_digits 60 "" eq_refl eq_refl))
              ideographic_space _).
    apply (blank_more ideographic_space ""); [|constructor].
    cbn. tauto.
  - refine (proj1 (proj2 (parseInt_reads_leading_digits 15 " minutes"
                            eq_refl eq_refl))
              (no_break_space ++ " ") _).
    apply (blank_more no_break_space " "); [cbn; tauto|].
    apply (blank_more " " ""); [cbn; tauto | constructor].
Defined.

(** X20. Deleting an id that no row has leaves the list as it is, and the
    whole list is written to storage all the same. *)
Theorem deleting_a_missing_id_only_writes
  (taskId : string) (ok : bool) (st : State) :
  (forall t, In t (tasks st) -> id t <> taskId) ->
  tasks (handleDeleteTask taskId ok st) = tasks st /\
  effects (handleDeleteTask taskId ok st) =
    (effects st ++ StorageSetItem STORAGE_KEY (tasks st) ::
       (if ok then [] else [Alert "エラー" "タスクの保存に失敗しました"]))%list /\
  (ok = true -> storage (handleDeleteTask taskId ok st) = Some (tasks st)).
Proof.
  intros Hmiss.
  assert (Hsame : filter (fun task => negb (String.eqb (id task) taskId)) (tasks st)
                  = tasks st).
  { induction (tasks st) as [|t ts IH]; [reflexivity|]. cbn.
    assert (Ht : String.eqb (id t) taskId = false)
      by (apply String.eqb_neq, Hmiss; left; reflexivity).
    rewrite Ht. cbn. f_equal. apply IH. intros u Hu. apply Hmiss. right. exact Hu. }
  destruct (handleDeleteTask_frame taskId ok st) as [_ [_ [_ Hl]]].
  rewrite Hsame in Hl. split; [exact Hl|]. split.
  - unfold handleDeleteTask, saveTasks. rewrite Hsame.
    destruct ok; cbn; [reflexivity | rewrite <- app_assoc; reflexivity].
  - intros ->. rewrite handleDeleteTask_storage, Hl. reflexivity.
Qed.

Lemma deleting_a_missing_id_only_writes_witness :
  tasks (handleDeleteTask "0" true (listing [report; review])) = [report; review].
Proof.
  refine (proj1 (deleting_a_missing_id_only_writes "0" true
                   (listing [report; review]) _)).
  intros t [<- | [<- | []]]; discriminate.
Defined.
